(** * school_app: the subscription, trial and payment core of [app.py]

    A shallow embedding of the billing code of [src/app.py]: the access
    guard ([has_trial_access], [active_subscription_for],
    [subscription_required]), the period extension
    ([create_subscription_month]), the [/subscribe] actions and the payment
    webhook ([chargily_webhook]).

    Conventions of the embedding.
    - The SQLite store is explicit state: a [database] record holding the
      [users] and [subscriptions] tables as lists in rowid order.  Every
      handler takes the store and returns the store it leaves behind.
    - [datetime.date] is its proleptic Gregorian ordinal
      ([date.toordinal()]) in [Z]; adding [timedelta(days=n)] adds [n].  The
      calendar ceiling of year 9999 is outside the model.
    - The date columns of [subscriptions] are written only through
      [date.isoformat()], whose fixed width makes SQLite's text order the
      calendar order; the model keeps the date itself in those columns.  The
      trial columns of [users] stay text, because [has_trial_access] reads
      them through a guarded parse.
    - The column [created_at] of [subscriptions], a default timestamp that
      no handler reads or writes, is left out.
    - [datetime.date.today()] is the parameter [today] of a handler, read
      once per request.
    - A Python exception is the [Raise] branch of [result]; [sqlite3.Row]
      values are records, and [fetchone()] returns an [option]. *)

From Stdlib Require Import ZArith List String Ascii Bool Lia Floats.
Import ListNotations.

Set Warnings "-register-all".

Local Open Scope string_scope.
Local Open Scope list_scope.
Local Open Scope Z_scope.

(* ------------------------------------------------------------------ *)
(** ** Python values and the pieces of the runtime the handlers use   *)
(* ------------------------------------------------------------------ *)

Module Py.

(** The exceptions that the modelled code can meet. *)
Inductive exn : Type :=
| AttributeError
| TypeError
| ValueError
| OverflowError
| BadRequest.

Inductive result (A : Type) : Type :=
| Ok (a : A)
| Raise (e : exn).

Arguments Ok {A} a.
Arguments Raise {A} e.

Definition bind {A B : Type} (m : result A) (k : A -> result B) : result B :=
  match m with
  | Ok a => k a
  | Raise e => Raise e
  end.

(** What [json.loads] produces: [None], [bool], [int], [float], [str],
    [list] and [dict].  A dict is the association list of its items; lookup
    takes the first binding of a key. *)
Inductive json : Type :=
| JNull
| JBool (b : bool)
| JInt (n : Z)
| JFloat (f : float)
| JStr (s : string)
| JList (l : list json)
| JDict (kv : list (string * json)).

(** [bool(v)]: Python truthiness. *)
Definition truthy (v : json) : bool :=
  match v with
  | JNull => false
  | JBool b => b
  | JInt n => negb (n =? 0)
  | JFloat f => negb (PrimFloat.eqb f PrimFloat.zero)
  | JStr s => negb (s =? "")%string
  | JList l => match l with [] => false | _ :: _ => true end
  | JDict kv => match kv with [] => false | _ :: _ => true end
  end.

(** [a or b] *)
Definition or_ (a b : json) : json := if truthy a then a else b.

(** [isinstance(v, dict)] *)
Definition is_dict (v : json) : bool :=
  match v with JDict _ => true | _ => false end.

Fixpoint dict_get (kv : list (string * json)) (k : string) : json :=
  match kv with
  | [] => JNull
  | (k', v) :: rest => if (k' =? k)%string then v else dict_get rest k
  end.

(** [v.get(k)]: only a dict has the method; a missing key gives [None]. *)
Definition get (v : json) (k : string) : result json :=
  match v with
  | JDict kv => Ok (dict_get kv k)
  | _ => Raise AttributeError
  end.

(** [v == s] for a string literal [s]: only an equal [str] compares equal. *)
Definition eq_str (v : json) (s : string) : bool :=
  match v with
  | JStr s' => (s' =? s)%string
  | _ => false
  end.

(** [v in (s1, ..., sn)] for a tuple of string literals. *)
Definition in_strs (v : json) (ss : list string) : bool :=
  existsb (eq_str v) ss.

(** [int(f)] on a float: truncation toward zero; [nan] and the infinities
    raise. *)
Definition int_of_float (f : float) : result Z :=
  match Prim2SF f with
  | S754_zero _ => Ok 0
  | S754_infinity _ => Raise OverflowError
  | S754_nan => Raise ValueError
  | S754_finite s m e =>
      let v := Z.shiftl (Zpos m) e in
      Ok (if s then - v else v)
  end.

End Py.

Import Py.

(** Sequencing inside a handler whose store is [db]: an exception leaves the
    handler with the store as it is at that point. *)
Notation "'try!' x ':=' m 'on' db 'in' k" :=
  (match m with
   | Py.Ok x => k
   | Py.Raise e => (Py.Raise e, db)
   end)
  (at level 10, x name, m at level 100, db at level 0, k at level 200).

Notation "'let*' x ':=' m 'in' k" := (Py.bind m (fun x => k))
  (at level 10, x name, m at level 100, k at level 200).

(** A calendar day, as [date.toordinal()]. *)
Definition date : Type := Z.

(** [d + datetime.timedelta(days=n)] *)
Definition add_days (d : date) (n : Z) : date := d + n.

(** The library functions whose exact behaviour on text is not part of this
    program: they are an interface, instantiated below by [cpython] for
    evaluation. *)
Class PyLib : Type := {
  (** [d.isoformat()] *)
  isoformat : date -> string;
  (** [datetime.datetime.fromisoformat(s).date()], [None] when it raises *)
  datetime_fromisoformat : string -> option date;
  (** [int(s)] on a [str], [None] when it raises [ValueError] *)
  int_of_str : string -> option Z
}.

(* ------------------------------------------------------------------ *)
(** ** The store                                                       *)
(* ------------------------------------------------------------------ *)

(** Table [users]. *)
Module users.
Record row : Type := mk {
  id : Z;
  username : option string;
  email : option string;
  password_hash : string;
  role : string;
  trial_started_at : option string;
  trial_ends_at : option string
}.
End users.

(** Table [subscriptions]. *)
Module subscriptions.
Record row : Type := mk {
  id : Z;
  user_id : Z;
  status : string;
  current_period_start : date;
  current_period_end : date;
  cancel_at_period_end : Z
}.
End subscriptions.

Record database : Type := mkdb {
  users_tbl : list users.row;
  subscriptions_tbl : list subscriptions.row
}.

(** Configuration constants of [app.py]. *)
Definition TRIAL_DAYS : Z := 7.
Definition BILLING_DAYS : Z := 30.

(** [SELECT * FROM users WHERE id = ?] followed by [fetchone()].  The
    parameter is [None] when the session holds no user id: [id = NULL]
    selects nothing. *)
Definition select_user (db : database) (uid : option Z) : option users.row :=
  match uid with
  | None => None
  | Some n => find (fun u => users.id u =? n) (users_tbl db)
  end.

(** [ORDER BY current_period_end DESC LIMIT 1] followed by [fetchone()]:
    a row of greatest [current_period_end], the earliest in rowid order
    among equals. *)
Fixpoint latest_by_end (rows : list subscriptions.row) : option subscriptions.row :=
  match rows with
  | [] => None
  | r :: rest =>
      match latest_by_end rest with
      | None => Some r
      | Some m =>
          if subscriptions.current_period_end m <=? subscriptions.current_period_end r
          then Some r else Some m
      end
  end.

(** [WHERE user_id = ? AND status = 'active'] *)
Definition is_active_of (uid : Z) (r : subscriptions.row) : bool :=
  (subscriptions.user_id r =? uid) && (subscriptions.status r =? "active")%string.

(** New rowid of an [AUTOINCREMENT] key on a table that never loses rows. *)
Definition next_id (rows : list subscriptions.row) : Z :=
  fold_right (fun r acc => Z.max (subscriptions.id r) acc) 0 rows + 1.

(* ------------------------------------------------------------------ *)
(** ** The handlers of [app.py]                                        *)
(* ------------------------------------------------------------------ *)

Section App.

Context {L : PyLib}.

(** [has_trial_access(user_row)] *)
Definition has_trial_access (today : date) (user_row : option users.row) : bool :=
  match user_row with
  | None => false
  | Some u =>
      match users.trial_ends_at u with
      | None => false
      | Some te =>
          if (te =? "")%string then false
          else
            match datetime_fromisoformat te with
            | None => false
            | Some ends => today <=? ends
            end
      end
  end.

(** [active_subscription_for(user_id)] *)
Definition active_subscription_for (today : date) (user_id : Z) (db : database)
  : option subscriptions.row :=
  latest_by_end
    (filter (fun r => is_active_of user_id r
                      && (today <=? subscriptions.current_period_end r))
            (subscriptions_tbl db)).

(** Truthiness of what [fetchone()] returns: a row or [None]. *)
Definition fetched {A : Type} (r : option A) : bool :=
  match r with Some _ => true | None => false end.

(** What a guarded view does with a request. *)
Inductive guarded : Type :=
| CallView
| RedirectTo (endpoint : string) (flash : string * string).

Definition MSG_NEEDS_SUBSCRIPTION : string :=
  "هذه الصفحة تتطلب اشتراكًا نشطًا أو فترة تجريبية. يمكنك البدء من صفحة التسعير.".

(** [subscription_required(f)], applied to a request whose session holds
    [session_user_id] ([session.get("user_id")]). *)
Definition subscription_required (today : date) (session_user_id : option Z)
    (db : database) : guarded :=
  let user := select_user db session_user_id in
  if match user with
     | Some u =>
         has_trial_access today user
         || fetched (active_subscription_for today (users.id u) db)
     | None => false
     end
  then CallView
  else RedirectTo "pricing" (MSG_NEEDS_SUBSCRIPTION, "error").

(** [INSERT INTO subscriptions (...) VALUES (?,?,?,?,0)] *)
Definition insert_subscription (db : database) (user_id : Z) (status : string)
    (period_start period_end : date) : database :=
  mkdb (users_tbl db)
       (subscriptions_tbl db ++
        [subscriptions.mk (next_id (subscriptions_tbl db)) user_id status
                          period_start period_end 0]).

(** [create_subscription_month(user_id)] *)
Definition create_subscription_month (today : date) (user_id : Z) (db : database)
  : database * date :=
  let last := latest_by_end (filter (is_active_of user_id) (subscriptions_tbl db)) in
  let period_start :=
    match last with
    | Some l =>
        if today <=? subscriptions.current_period_end l
        then add_days (subscriptions.current_period_end l) 1
        else today
    | None => today
    end in
  let period_end := add_days period_start (BILLING_DAYS - 1) in
  (insert_subscription db user_id "active" period_start period_end, period_end).

(** The row-wise effect of
    [UPDATE users SET trial_started_at=?, trial_ends_at=? WHERE id=?] *)
Definition set_trial (started ends : string) (user_id : Z) (u : users.row)
  : users.row :=
  if users.id u =? user_id
  then users.mk (users.id u) (users.username u) (users.email u)
                (users.password_hash u) (users.role u)
                (Some started) (Some ends)
  else u.

Definition update_trial (db : database) (started ends : string) (user_id : Z)
  : database :=
  mkdb (map (set_trial started ends user_id) (users_tbl db))
       (subscriptions_tbl db).

Definition set_cancel (v : Z) (r : subscriptions.row) : subscriptions.row :=
  subscriptions.mk (subscriptions.id r) (subscriptions.user_id r)
                   (subscriptions.status r)
                   (subscriptions.current_period_start r)
                   (subscriptions.current_period_end r) v.

(** The row-wise effect of
    [UPDATE subscriptions SET cancel_at_period_end=1
     WHERE user_id=? AND status='active' AND cancel_at_period_end=0] *)
Definition cancel_row (user_id : Z) (r : subscriptions.row) : subscriptions.row :=
  if is_active_of user_id r && (subscriptions.cancel_at_period_end r =? 0)
  then set_cancel 1 r else r.

Definition update_cancel (db : database) (user_id : Z) : database :=
  mkdb (users_tbl db) (map (cancel_row user_id) (subscriptions_tbl db)).

(** The row-wise effect of
    [UPDATE subscriptions SET cancel_at_period_end=0
     WHERE user_id=? AND status='active'] *)
Definition uncancel_row (user_id : Z) (r : subscriptions.row) : subscriptions.row :=
  if is_active_of user_id r then set_cancel 0 r else r.

Definition update_uncancel (db : database) (user_id : Z) : database :=
  mkdb (users_tbl db) (map (uncancel_row user_id) (subscriptions_tbl db)).

(** A response of [/subscribe]: the flashed message and the endpoint of the
    redirect. *)
Record redirected : Type := mkredirect {
  flashed : string * string;
  endpoint : string
}.

Definition MSG_TRIAL_USED : string := "لقد استخدمت الفترة التجريبية مسبقًا.".
Definition MSG_TRIAL_STARTED (ends : string) : string :=
  ("بدأت الفترة التجريبية حتى " ++ ends)%string.
Definition MSG_CANCEL : string := "سيُلغى الاشتراك بنهاية الفترة الحالية.".
Definition MSG_UNKNOWN : string := "طلب غير معروف".

(** Truthiness of a nullable text column. *)
Definition text_truthy (t : option string) : bool :=
  match t with
  | None => false
  | Some s => negb (s =? "")%string
  end.

(** [subscribe()], for the logged-in user [user_id] ([session["user_id"]])
    and the form field [action] ([request.form.get("action")]). *)
Definition subscribe (today : date) (action : option string) (user_id : Z)
    (db : database) : result redirected * database :=
  match action with
  | Some "start_trial" =>
      match select_user db (Some user_id) with
      | None => (Raise TypeError, db)
      | Some user =>
          if text_truthy (users.trial_started_at user)
          then (Ok (mkredirect (MSG_TRIAL_USED, "error") "account"), db)
          else
            let ends := add_days today TRIAL_DAYS in
            (Ok (mkredirect (MSG_TRIAL_STARTED (isoformat ends), "ok") "account"),
             update_trial db (isoformat today) (isoformat ends) user_id)
      end
  | Some "cancel" =>
      (Ok (mkredirect (MSG_CANCEL, "ok") "account"), update_cancel db user_id)
  | _ => (Ok (mkredirect (MSG_UNKNOWN, "error") "pricing"), db)
  end.

(** The body of a webhook request: [None] when it is not valid JSON. *)
Definition request_body : Type := option json.

(** [request.get_json(force=..., silent=...)]: with [silent] a body that does
    not parse gives [None] instead of raising. *)
Definition get_json (force silent : bool) (body : request_body) : result json :=
  match body with
  | Some v => Ok v
  | None => if silent then Ok JNull else Raise BadRequest
  end.

(** [int(v)] on a decoded JSON value. *)
Definition py_int (v : json) : result Z :=
  match v with
  | JNull => Raise TypeError
  | JBool b => Ok (if b then 1 else 0)
  | JInt n => Ok n
  | JFloat f => int_of_float f
  | JStr s =>
      match int_of_str s with
      | Some n => Ok n
      | None => Raise ValueError
      end
  | JList _ => Raise TypeError
  | JDict _ => Raise TypeError
  end.

(** [chargily_webhook()] *)
Definition chargily_webhook (today : date) (body : request_body) (db : database)
  : result (string * Z) * database :=
  match get_json true true body with
  | Raise _ => (Ok ("invalid json", 400), db)
  | Ok parsed =>
      let evt := or_ parsed (JDict []) in
      try! entity := get evt "entity" on db in
      try! status := get evt "status" on db in
      try! md := get evt "metadata" on db in
      let metadata := or_ md (JDict []) in
      try! data := (if negb (truthy entity) then get evt "data" else Ok JNull) on db in
      try! fields :=
        (if negb (truthy entity) && is_dict data then
           let* e := get data "entity" in
           let* s := get data "status" in
           let* m := get data "metadata" in
           Ok (or_ e entity, or_ s status, or_ m metadata)
         else Ok (entity, status, metadata)) on db in
      let '(entity, status, metadata) := fields in
      try! user_id := get (or_ metadata (JDict [])) "user_id" on db in
      if eq_str entity "checkout" && in_strs status ["paid"; "succeeded"; "success"]
      then
        match py_int user_id with
        | Raise _ => (Ok ("missing user_id", 400), db)
        | Ok n =>
            let (db1, period_end) := create_subscription_month today n db in
            (Ok ("ok", 200), update_uncancel db1 n)
        end
      else (Ok ("ignored", 200), db)
  end.

End App.

(* ------------------------------------------------------------------ *)
(** ** An instance of the library interface, for evaluation            *)
(* ------------------------------------------------------------------ *)

(** The proleptic Gregorian calendar as CPython's [datetime] computes it
    ([_ymd2ord], [_ord2ymd]), the [%04d-%02d-%02d] text of
    [date.isoformat()], and the readers restricted to the plain forms
    [YYYY-MM-DD] and an optionally signed run of ASCII digits. *)
Module Calendar.

Definition is_leap (y : Z) : bool :=
  (y mod 4 =? 0) && (negb (y mod 100 =? 0) || (y mod 400 =? 0)).

Definition days_before_year (year : Z) : Z :=
  let y := year - 1 in
  y * 365 + y / 4 - y / 100 + y / 400.

Definition DAYS_IN_MONTH : list Z :=
  [-1; 31; 28; 31; 30; 31; 30; 31; 31; 30; 31; 30; 31].

Definition DAYS_BEFORE_MONTH : list Z :=
  [-1; 0; 31; 59; 90; 120; 151; 181; 212; 243; 273; 304; 334].

Definition tbl (t : list Z) (m : Z) : Z := nth (Z.to_nat m) t 0.

Definition days_in_month (y m : Z) : Z :=
  if (m =? 2) && is_leap y then 29 else tbl DAYS_IN_MONTH m.

Definition days_before_month (y m : Z) : Z :=
  tbl DAYS_BEFORE_MONTH m + (if (2 <? m) && is_leap y then 1 else 0).

Definition ymd2ord (y m d : Z) : Z :=
  days_before_year y + days_before_month y m + d.

Definition ord2ymd (ordinal : Z) : Z * Z * Z :=
  let n := ordinal - 1 in
  let n400 := n / 146097 in
  let n := n mod 146097 in
  let year := n400 * 400 + 1 in
  let n100 := n / 36524 in
  let n := n mod 36524 in
  let n4 := n / 1461 in
  let n := n mod 1461 in
  let n1 := n / 365 in
  let n := n mod 365 in
  let year := year + n100 * 100 + n4 * 4 + n1 in
  if (n1 =? 4) || (n100 =? 4) then (year - 1, 12, 31)
  else
    let leapyear := (n1 =? 3) && (negb (n4 =? 24) || (n100 =? 3)) in
    let month := Z.shiftr (n + 50) 5 in
    let preceding :=
      tbl DAYS_BEFORE_MONTH month + (if (2 <? month) && leapyear then 1 else 0) in
    if n <? preceding then
      let month := month - 1 in
      let preceding :=
        preceding
        - (tbl DAYS_IN_MONTH month + (if (month =? 2) && leapyear then 1 else 0)) in
      (year, month, n - preceding + 1)
    else (year, month, n - preceding + 1).

Definition digit (n : Z) : ascii := ascii_of_nat (48 + Z.to_nat (n mod 10)).

(** [%0<width>d] for a natural number below [10^width]. *)
Fixpoint zero_padded (width : nat) (n : Z) : string :=
  match width with
  | O => ""
  | S w => (zero_padded w (n / 10) ++ String (digit n) "")%string
  end.

Definition isoformat (d : Z) : string :=
  let '(y, m, dd) := ord2ymd d in
  (zero_padded 4 y ++ "-" ++ zero_padded 2 m ++ "-" ++ zero_padded 2 dd)%string.

Definition digit_value (c : ascii) : option Z :=
  let n := Z.of_nat (nat_of_ascii c) in
  if (48 <=? n) && (n <=? 57) then Some (n - 48) else None.

Fixpoint digits_value (acc : Z) (s : string) : option Z :=
  match s with
  | EmptyString => Some acc
  | String c rest =>
      match digit_value c with
      | Some v => digits_value (acc * 10 + v) rest
      | None => None
      end
  end.

Definition number (s : string) : option Z :=
  match s with
  | EmptyString => None
  | _ => digits_value 0 s
  end.

(** The text [YYYY-MM-DD] of a valid calendar day; anything else is refused. *)
Definition fromisoformat (s : string) : option Z :=
  if negb (Nat.eqb (String.length s) 10) then None
  else
    match number (substring 0 4 s), substring 4 1 s,
          number (substring 5 2 s), substring 7 1 s,
          number (substring 8 2 s) with
    | Some y, "-"%string, Some m, "-"%string, Some d =>
        if (1 <=? y) && (1 <=? m) && (m <=? 12) && (1 <=? d)
           && (d <=? days_in_month y m)
        then Some (ymd2ord y m d) else None
    | _, _, _, _, _ => None
    end.

(** An optional sign followed by ASCII digits. *)
Definition int_of_str (s : string) : option Z :=
  match s with
  | String "-"%char rest => option_map Z.opp (number rest)
  | String "+"%char rest => number rest
  | _ => number s
  end.

End Calendar.

Definition cpython : PyLib := {|
  isoformat := Calendar.isoformat;
  datetime_fromisoformat := Calendar.fromisoformat;
  int_of_str := Calendar.int_of_str
|}.

(** The days of the worked example of the specification. *)
Definition d_2024_06_01 : date := Calendar.ymd2ord 2024 6 1.
Definition d_2024_06_10 : date := Calendar.ymd2ord 2024 6 10.
Definition d_2024_08_01 : date := Calendar.ymd2ord 2024 8 1.

(* ------------------------------------------------------------------ *)
(** ** The routes around the billing core                              *)
(* ------------------------------------------------------------------ *)

(** What a route answers: the page of its view function, or a redirect to
    an endpoint after flashing messages. *)
Inductive response (A : Type) : Type :=
| Page (a : A)
| Redirect (endpoint : string) (flashes : list (string * string)).

Arguments Page {A} a.
Arguments Redirect {A} endpoint flashes.

(** Truthiness of [session.get("user_id")]: a missing key and 0 are false. *)
Definition session_truthy (session_user_id : option Z) : bool :=
  match session_user_id with
  | Some n => negb (n =? 0)
  | None => false
  end.

(** [login_required(f)], applied to a request whose session holds
    [session_user_id]; [f] is what the wrapped function answers. *)
Definition login_required {A : Type} (session_user_id : option Z)
    (f : response A) : response A :=
  if negb (session_truthy session_user_id) then Redirect "login" [] else f.

Section Routes.

Context {L : PyLib}.

(** The wrapper that [subscription_required(f)] returns, with [f] what the
    wrapped function answers. *)
Definition subscription_wrapped {A : Type} (today : date)
    (session_user_id : option Z) (db : database) (f : response A) : response A :=
  match subscription_required today session_user_id db with
  | CallView => f
  | RedirectTo endpoint flash => Redirect endpoint [flash]
  end.

(** A view under [@login_required] and [@subscription_required], in the
    order in which [dashboard], [classes_view], [students], [grades_page],
    [attendance_page], [reports] and the others stack them. *)
Definition protected_view {A : Type} (today : date) (session_user_id : option Z)
    (db : database) (f : response A) : response A :=
  login_required session_user_id
    (subscription_wrapped today session_user_id db f).

(** The template context of the pricing page. *)
Record pricing_page : Type := mkpricing {
  on_trial : bool;
  trial_used : bool;
  sub : option subscriptions.row;
  monthly_price : Z
}.

(** [pricing()], under [@login_required], for the logged-in user [user_id];
    [MONTHLY_PRICE_DZD] is the configured price. *)
Definition pricing (today : date) (MONTHLY_PRICE_DZD : Z) (user_id : Z)
    (db : database) : result pricing_page :=
  let user := select_user db (Some user_id) in
  let sub := active_subscription_for today user_id db in
  let on_trial := has_trial_access today user in
  match user with
  | None => Raise TypeError
  | Some u =>
      Ok (mkpricing on_trial (text_truthy (users.trial_started_at u)) sub
                    MONTHLY_PRICE_DZD)
  end.

End Routes.

(** The call [requests.post(url, headers=..., data=json.dumps(payload),
    timeout=20)] of [pay_start]. *)
Record gateway_request : Type := mkrequest {
  url : string;
  authorization : string;
  content_type : string;
  payload : json;
  timeout : Z
}.

(** What comes back: an exception of [requests] (no connection, timeout),
    or a reply with its status code and what [resp.json()] gives ([None]
    when that raises). *)
Inductive gateway_reply : Type :=
| NoReply
| Reply (status_code : Z) (body : option json).

(** The messages that [pay_start] flashes before it sends the user back to
    the pricing page; the texts that quote the reply or the exception keep
    it as a value. *)
Inductive pay_failure : Type :=
| KeyNotSet
| CheckoutRefused (data : json)
| NoCheckoutUrl
| GatewayError.

(** How [pay_start] ends: [redirect(checkout_url)], or the pricing page. *)
Inductive pay_outcome : Type :=
| ToCheckout (checkout_url : json)
| ToPricing (why : pay_failure).

(** The [metadata] of the checkout request, which binds the payment to the
    user. *)
Definition checkout_metadata (user_id : Z) : json :=
  JDict [("user_id", JInt user_id); ("plan", JStr "monthly")].

(** The payload of the checkout request. *)
Definition checkout_payload (MONTHLY_PRICE_DZD : Z) (CHARGILY_SUCCESS_URL : string)
    (user_id : Z) : json :=
  JDict [("amount", JInt MONTHLY_PRICE_DZD);
         ("currency", JStr "dzd");
         ("success_url", JStr CHARGILY_SUCCESS_URL);
         ("metadata", checkout_metadata user_id);
         ("locale", JStr "ar")].

(** [pay_start()], under [@login_required], for the logged-in user
    [user_id].  [CHARGILY_SECRET_KEY], [CHARGILY_BASE],
    [CHARGILY_SUCCESS_URL] and [MONTHLY_PRICE_DZD] are the configuration;
    [gateway] is the outside world answering the request. *)
Definition pay_start (CHARGILY_SECRET_KEY : option string) (CHARGILY_BASE : string)
    (CHARGILY_SUCCESS_URL : string) (MONTHLY_PRICE_DZD : Z)
    (gateway : gateway_request -> gateway_reply) (user_id : Z) : pay_outcome :=
  match CHARGILY_SECRET_KEY with
  | None => ToPricing KeyNotSet
  | Some key =>
      if (key =? "")%string then ToPricing KeyNotSet
      else
        let payload :=
          checkout_payload MONTHLY_PRICE_DZD CHARGILY_SUCCESS_URL user_id in
        match gateway (mkrequest (CHARGILY_BASE ++ "/checkouts")%string
                                 ("Bearer " ++ key)%string
                                 "application/json" payload 20) with
        | NoReply => ToPricing GatewayError
        | Reply status_code None => ToPricing GatewayError
        | Reply status_code (Some data) =>
            if 400 <=? status_code then ToPricing (CheckoutRefused data)
            else
              match get data "checkout_url" with
              | Raise _ => ToPricing GatewayError
              | Ok checkout_url =>
                  if negb (truthy checkout_url) then ToPricing NoCheckoutUrl
                  else ToCheckout checkout_url
              end
        end
  end.

(* ------------------------------------------------------------------ *)
(** ** Accounts: registration, login, password reset, settings         *)
(* ------------------------------------------------------------------ *)

(** The library functions on text and time that the account handlers use;
    [sha_text] below instantiates them for evaluation. *)
Class PyText : Type := {
  (** [s.strip()] *)
  strip : string -> string;
  (** [s.lower()] *)
  lower : string -> string;
  (** [sha256(s.encode("utf-8")).hexdigest()] *)
  sha256_hexdigest : string -> string
}.

(** A naive [datetime.datetime], in microseconds. *)
Definition datetime : Type := Z.

(** [t + datetime.timedelta(hours=h)], [t - datetime.timedelta(seconds=s)] *)
Definition add_hours (t : datetime) (h : Z) : datetime := t + h * 3600000000.
Definition sub_seconds (t : datetime) (s : Z) : datetime := t - s * 1000000.

(** What [datetime.datetime.fromisoformat] returns: a naive value, or one
    with a UTC offset. *)
Inductive parsed_datetime : Type :=
| Naive (t : datetime)
| Aware (t : datetime).

Class PyClock : Type := {
  (** [t.isoformat()] of a naive value *)
  datetime_isoformat : datetime -> string;
  (** [datetime.datetime.fromisoformat(s)], [None] when it raises *)
  datetime_parse : string -> option parsed_datetime
}.

(** [request.form]: the first value of a field is the one that [get]
    returns. *)
Definition form : Type := list (string * string).

Fixpoint form_get (f : form) (k : string) : option string :=
  match f with
  | [] => None
  | (k', v) :: rest => if (k' =? k)%string then Some v else form_get rest k
  end.

(** [request.form.get(k, default)] *)
Definition form_get_default (f : form) (k default : string) : string :=
  match form_get f k with
  | Some v => v
  | None => default
  end.

(** Table [password_resets], without its [created_at] default. *)
Module password_resets.
Record row : Type := mk {
  id : Z;
  user_id : Z;
  token : string;
  expires_at : string;
  used : Z
}.
End password_resets.

(** Table [subjects]. *)
Module subjects.
Record row : Type := mk {
  id : Z;
  name : string
}.
End subjects.

(** The store of the account handlers: the billing store with the tables
    [password_resets] and [subjects]. *)
Record site : Type := mksite {
  billing : database;
  password_resets_tbl : list password_resets.row;
  subjects_tbl : list subjects.row
}.

(** What the session holds after [session.update(...)] in [register] and
    [login]. *)
Module session.
Record data : Type := mk {
  user_id : Z;
  username : option string;
  email : option string;
  role : string
}.
End session.

(** The session: empty, or the data of the logged-in user. *)
Definition session_state : Type := option session.data.

(** [session.get("user_id")] *)
Definition session_user_id (s : session_state) : option Z :=
  option_map session.user_id s.

(** What an account handler answers: a rendered template or a redirect,
    after the messages it flashed. *)
Inductive reply : Type :=
| Render (template : string) (flashes : list (string * string))
| Goto (endpoint : string) (flashes : list (string * string)).

(** How a handler can fail: a Python exception, or [sqlite3.IntegrityError]
    from a constraint of the schema. *)
Inductive failure : Type :=
| Python (e : exn)
| IntegrityError.

Inductive outcome (A : Type) : Type :=
| Done (a : A)
| Failed (f : failure).

Arguments Done {A} a.
Arguments Failed {A} f.

(** New rowid of an [AUTOINCREMENT] key on a table that never loses rows. *)
Definition next_rowid {A : Type} (id : A -> Z) (rows : list A) : Z :=
  fold_right (fun r acc => Z.max (id r) acc) 0 rows + 1.

(** [email = ?] on a row of [users]: a [NULL] email equals nothing. *)
Definition has_email (email : string) (u : users.row) : bool :=
  match users.email u with
  | Some e => (e =? email)%string
  | None => false
  end.

(** [SELECT * FROM users WHERE email = ?] followed by [fetchone()]. *)
Definition select_user_by_email (db : database) (email : string) : option users.row :=
  find (has_email email) (users_tbl db).

(** [SELECT * FROM users WHERE email = ? AND password_hash = ?] followed by
    [fetchone()]. *)
Definition select_user_by_login (db : database) (email pwd_hash : string)
  : option users.row :=
  find (fun u => has_email email u && (users.password_hash u =? pwd_hash)%string)
       (users_tbl db).

(** [INSERT INTO users (username,email,password_hash,role) VALUES (?,?,?,?)]
    under the constraints [email TEXT UNIQUE] and
    [role ... CHECK(role IN ('admin','teacher'))] of the table. *)
Definition insert_user (db : database) (username : option string) (email : string)
    (pwd_hash role : string) : outcome database :=
  if negb ((role =? "admin")%string || (role =? "teacher")%string)
  then Failed IntegrityError
  else
    match select_user_by_email db email with
    | Some _ => Failed IntegrityError
    | None =>
        Done (mkdb (users_tbl db ++
                    [users.mk (next_rowid users.id (users_tbl db)) username
                              (Some email) pwd_hash role None None])
                   (subscriptions_tbl db))
    end.

(** The row-wise effect of [UPDATE users SET password_hash = ? WHERE id = ?]. *)
Definition set_password (pwd_hash : string) (user_id : Z) (u : users.row)
  : users.row :=
  if users.id u =? user_id
  then users.mk (users.id u) (users.username u) (users.email u) pwd_hash
                (users.role u) (users.trial_started_at u) (users.trial_ends_at u)
  else u.

Definition update_password (db : database) (pwd_hash : string) (user_id : Z)
  : database :=
  mkdb (map (set_password pwd_hash user_id) (users_tbl db)) (subscriptions_tbl db).

(** [session.update({"user_id": user["id"], "username": user["username"],
    "email": user["email"], "role": user["role"]})] *)
Definition session_of (user : users.row) : session_state :=
  Some (session.mk (users.id user) (users.username user) (users.email user)
                   (users.role user)).

Definition MSG_REGISTER_REQUIRED : string := "الإيميل وكلمة المرور مطلوبة".
Definition MSG_EMAIL_REGISTERED : string := "هذا الإيميل مسجل مسبقًا".
Definition MSG_REGISTERED : string :=
  "تم إنشاء الحساب! يمكنك بدء التجربة من التسعير.".
Definition MSG_BAD_LOGIN : string := "بيانات الدخول غير صحيحة".

Section Accounts.

Context {T : PyText}.

(** [(request.form.get("email", "") or "").strip().lower()] *)
Definition form_email (f : form) : string :=
  lower (strip (form_get_default f "email" "")).

(** [register()] *)
Definition register (method : string) (f : form) (db : database)
    (sess : session_state) : outcome (reply * database * session_state) :=
  if (method =? "POST")%string then
    let username :=
      let s := strip (form_get_default f "username" "") in
      if (s =? "")%string then None else Some s in
    let email := form_email f in
    let password := form_get_default f "password" "" in
    if (email =? "")%string || (password =? "")%string then
      Done (Render "register/index.html" [(MSG_REGISTER_REQUIRED, "error")], db, sess)
    else
      match select_user_by_email db email with
      | Some _ =>
          Done (Render "register/index.html" [(MSG_EMAIL_REGISTERED, "error")],
                db, sess)
      | None =>
          let pwd_hash := sha256_hexdigest password in
          match insert_user db username email pwd_hash "teacher" with
          | Failed e => Failed e
          | Done db' =>
              match select_user_by_email db' email with
              | None => Failed (Python TypeError)
              | Some user =>
                  Done (Goto "pricing" [(MSG_REGISTERED, "ok")], db',
                        session_of user)
              end
          end
      end
  else Done (Render "register/index.html" [], db, sess).

(** [login()] *)
Definition login (method : string) (f : form) (db : database)
    (sess : session_state) : reply * session_state :=
  if (method =? "POST")%string then
    let email := form_email f in
    let password := form_get_default f "password" "" in
    let pwd_hash := sha256_hexdigest password in
    match select_user_by_login db email pwd_hash with
    | Some user => (Goto "dashboard" [], session_of user)
    | None => (Render "login/index.html" [(MSG_BAD_LOGIN, "error")], sess)
    end
  else (Render "login/index.html" [], sess).

(** [logout()], under [@login_required]. *)
Definition logout (sess : session_state) : reply * session_state :=
  if negb (session_truthy (session_user_id sess)) then (Goto "login" [], sess)
  else (Goto "login" [], None).

End Accounts.

Definition MSG_FORGOT_EMPTY : string := "يرجى إدخال الإيميل".
Definition MSG_FORGOT_UNKNOWN : string := "لا يوجد حساب بهذا الإيميل".
Definition MSG_FORGOT_SENT : string := "تم إرسال رابط إعادة التعيين إلى بريدك".
Definition MSG_MAIL_FAILED (reset_url : string) : string :=
  ("تعذّر إرسال البريد (وضع التطوير): رابط إعادة التعيين: " ++ reset_url)%string.
Definition MSG_MAIL_DEV (reset_url : string) : string :=
  ("وضع التطوير: رابط إعادة التعيين: " ++ reset_url)%string.
Definition MSG_RESET_INVALID : string := "رابط غير صالح أو مستخدم".
Definition MSG_RESET_EXPIRED : string := "انتهت صلاحية الرابط".
Definition MSG_RESET_MISMATCH : string := "الرجاء إدخال كلمة مرور والتأكيد صحيحًا".
Definition MSG_RESET_DONE : string := "تم تغيير كلمة المرور. سجّل الدخول الآن.".
Definition MSG_SUBJECT_ADDED : string := "تمت إضافة المادة".
Definition MSG_SUBJECT_EXISTS : string := "المادة موجودة سابقًا".
Definition MSG_USER_ADDED : string := "تمت إضافة المستخدم".
Definition MSG_EMAIL_USED : string := "الإيميل مستخدم بالفعل".
Definition MSG_PASSWORD_CHANGED : string := "تم تغيير كلمة المرور".
Definition MSG_OLD_PASSWORD_WRONG : string := "كلمة المرور القديمة غير صحيحة".

(** [send_reset_email(to_email, reset_url)]: what it returns and what it
    flashes.  [smtp_configured] tells whether [SMTP_HOST], [SMTP_USER],
    [SMTP_PASS] and [MAIL_FROM] are all set, [smtp_sends] whether the SMTP
    exchange goes through without an exception. *)
Definition send_reset_email (smtp_configured smtp_sends : bool)
    (to_email reset_url : string) : bool * list (string * string) :=
  if smtp_configured then
    if smtp_sends then (true, [])
    else (false, [(MSG_MAIL_FAILED reset_url, "error")])
  else (false, [(MSG_MAIL_DEV reset_url, "ok")]).

(** [INSERT INTO password_resets (user_id, token, expires_at, used)
    VALUES (?,?,?,0)] under the constraint [token TEXT UNIQUE]. *)
Definition insert_reset (rows : list password_resets.row) (user_id : Z)
    (token expires_at : string) : outcome (list password_resets.row) :=
  if existsb (fun r => (password_resets.token r =? token)%string) rows
  then Failed IntegrityError
  else Done (rows ++ [password_resets.mk (next_rowid password_resets.id rows)
                                         user_id token expires_at 0]).

(** [SELECT * FROM password_resets WHERE token = ? AND used = 0] followed by
    [fetchone()]. *)
Definition select_reset (rows : list password_resets.row) (token : string)
  : option password_resets.row :=
  find (fun r => (password_resets.token r =? token)%string
                 && (password_resets.used r =? 0))
       rows.

(** The row-wise effect of [UPDATE password_resets SET used = 1 WHERE id = ?]. *)
Definition mark_used (id : Z) (r : password_resets.row) : password_resets.row :=
  if password_resets.id r =? id
  then password_resets.mk (password_resets.id r) (password_resets.user_id r)
                          (password_resets.token r) (password_resets.expires_at r) 1
  else r.

(** [INSERT INTO subjects (name) VALUES (?)] under [name TEXT UNIQUE]. *)
Definition insert_subject (rows : list subjects.row) (name : string)
  : outcome (list subjects.row) :=
  if existsb (fun r => (subjects.name r =? name)%string) rows
  then Failed IntegrityError
  else Done (rows ++ [subjects.mk (next_rowid subjects.id rows) name]).

Section Passwords.

Context {T : PyText} {C : PyClock}.

(** [forgot()].  [now] is [datetime.datetime.utcnow()], [new_token] what
    [secrets.token_urlsafe(32)] returns, [reset_url_for] the external URL
    that [url_for("reset_password", token=..., _external=True)] builds. *)
Definition forgot (method : string) (f : form) (now : datetime)
    (new_token : string) (reset_url_for : string -> string)
    (smtp_configured smtp_sends : bool) (s : site) : outcome (reply * site) :=
  if (method =? "POST")%string then
    let email := form_email f in
    if (email =? "")%string then
      Done (Render "forgot/index.html" [(MSG_FORGOT_EMPTY, "error")], s)
    else
      match select_user_by_email (billing s) email with
      | None => Done (Render "forgot/index.html" [(MSG_FORGOT_UNKNOWN, "error")], s)
      | Some user =>
          let expires_at := datetime_isoformat (add_hours now 1) in
          match insert_reset (password_resets_tbl s) (users.id user) new_token
                             expires_at with
          | Failed e => Failed e
          | Done resets =>
              let s' := mksite (billing s) resets (subjects_tbl s) in
              let '(ok, flashed) :=
                send_reset_email smtp_configured smtp_sends email
                                 (reset_url_for new_token) in
              Done (Goto "login"
                         (flashed ++ if ok then [(MSG_FORGOT_SENT, "ok")] else []),
                    s')
          end
      end
  else Done (Render "forgot/index.html" [], s).

(** [reset_password(token)]; [now] is [datetime.datetime.utcnow()], read
    once. *)
Definition reset_password (token : string) (method : string) (f : form)
    (now : datetime) (s : site) : outcome (reply * site) :=
  match select_reset (password_resets_tbl s) token with
  | None => Done (Goto "login" [(MSG_RESET_INVALID, "error")], s)
  | Some req =>
      let exp :=
        match datetime_parse (password_resets.expires_at req) with
        | Some e => e
        | None => Naive (sub_seconds now 1)
        end in
      match exp with
      | Aware _ => Failed (Python TypeError)
      | Naive e =>
          if e <? now then Done (Goto "forgot" [(MSG_RESET_EXPIRED, "error")], s)
          else if (method =? "POST")%string then
            let new := form_get_default f "new" "" in
            let confirm := form_get_default f "confirm" "" in
            if (new =? "")%string || negb (new =? confirm)%string then
              Done (Render "reset/index.html" [(MSG_RESET_MISMATCH, "error")], s)
            else
              let pwd_hash := sha256_hexdigest new in
              Done (Goto "login" [(MSG_RESET_DONE, "ok")],
                    mksite (update_password (billing s) pwd_hash
                                            (password_resets.user_id req))
                           (map (mark_used (password_resets.id req))
                                (password_resets_tbl s))
                           (subjects_tbl s))
          else Done (Render "reset/index.html" [], s)
      end
  end.

(** The three forms of [settings()], in the order of the code; each takes
    the store and the messages flashed so far. *)
Definition settings_subject_add (method : string) (f : form)
    (st : site * list (string * string)) : site * list (string * string) :=
  let '(s, fl) := st in
  if (method =? "POST")%string
     && match form_get f "form_name" with
        | Some n => (n =? "subject_add")%string
        | None => false
        end
  then
    let sub_name := strip (form_get_default f "name" "") in
    if (sub_name =? "")%string then st
    else
      match insert_subject (subjects_tbl s) sub_name with
      | Done rows =>
          (mksite (billing s) (password_resets_tbl s) rows,
           fl ++ [(MSG_SUBJECT_ADDED, "ok")])
      | Failed _ => (s, fl ++ [(MSG_SUBJECT_EXISTS, "error")])
      end
  else st.

Definition settings_user_add (method : string) (f : form)
    (st : site * list (string * string)) : site * list (string * string) :=
  let '(s, fl) := st in
  if (method =? "POST")%string
     && match form_get f "form_name" with
        | Some n => (n =? "user_add")%string
        | None => false
        end
  then
    let username :=
      let u := strip (form_get_default f "username" "") in
      if (u =? "")%string then None else Some u in
    let email := form_email f in
    let password := form_get_default f "password" "" in
    let role := form_get_default f "role" "teacher" in
    if (email =? "")%string || (password =? "")%string then
      (s, fl ++ [(MSG_REGISTER_REQUIRED, "error")])
    else
      match insert_user (billing s) username email (sha256_hexdigest password)
                        role with
      | Done db' =>
          (mksite db' (password_resets_tbl s) (subjects_tbl s),
           fl ++ [(MSG_USER_ADDED, "ok")])
      | Failed _ => (s, fl ++ [(MSG_EMAIL_USED, "error")])
      end
  else st.

Definition settings_change_password (method : string) (f : form) (user_id : Z)
    (st : site * list (string * string)) : site * list (string * string) :=
  let '(s, fl) := st in
  if (method =? "POST")%string
     && match form_get f "form_name" with
        | Some n => (n =? "change_password")%string
        | None => false
        end
  then
    let old := form_get_default f "old" "" in
    let new := form_get_default f "new" "" in
    match select_user (billing s) (Some user_id) with
    | Some u =>
        if (sha256_hexdigest old =? users.password_hash u)%string then
          (mksite (update_password (billing s) (sha256_hexdigest new) user_id)
                  (password_resets_tbl s) (subjects_tbl s),
           fl ++ [(MSG_PASSWORD_CHANGED, "ok")])
        else (s, fl ++ [(MSG_OLD_PASSWORD_WRONG, "error")])
    | None => (s, fl ++ [(MSG_OLD_PASSWORD_WRONG, "error")])
    end
  else st.

(** [settings()], under [@login_required], for the logged-in user
    [user_id]: the store it leaves and the template it renders with the
    flashed messages (the listed subjects and users are left out). *)
Definition settings (method : string) (f : form) (user_id : Z) (s : site)
  : reply * site :=
  let '(s', fl) :=
    settings_change_password method f user_id
      (settings_user_add method f
         (settings_subject_add method f (s, []))) in
  (Render "settings/index.html" fl, s').

End Passwords.

(* ------------------------------------------------------------------ *)
(** ** Instances of the text and clock interfaces, for evaluation      *)
(* ------------------------------------------------------------------ *)

(** SHA-256 (FIPS 180-4) over the bytes of a string, printed in lower-case
    hexadecimal as [hexdigest()] does. *)
Module Sha256.

Definition mask32 (x : Z) : Z := Z.land x 4294967295.

Definition rotr (n x : Z) : Z :=
  Z.lor (Z.shiftr x n) (mask32 (Z.shiftl x (32 - n))).

Definition K : list Z :=
  [1116352408; 1899447441; 3049323471; 3921009573; 961987163; 1508970993;
   2453635748; 2870763221; 3624381080; 310598401; 607225278; 1426881987;
   1925078388; 2162078206; 2614888103; 3248222580; 3835390401; 4022224774;
   264347078; 604807628; 770255983; 1249150122; 1555081692; 1996064986;
   2554220882; 2821834349; 2952996808; 3210313671; 3336571891; 3584528711;
   113926993; 338241895; 666307205; 773529912; 1294757372; 1396182291;
   1695183700; 1986661051; 2177026350; 2456956037; 2730485921; 2820302411;
   3259730800; 3345764771; 3516065817; 3600352804; 4094571909; 275423344;
   430227734; 506948616; 659060556; 883997877; 958139571; 1322822218;
   1537002063; 1747873779; 1955562222; 2024104815; 2227730452; 2361852424;
   2428436474; 2756734187; 3204031479; 3329325298].

Definition H0 : list Z :=
  [1779033703; 3144134277; 1013904242; 2773480762;
   1359893119; 2600822924; 528734635; 1541459225].

Definition bytes_of (s : string) : list Z :=
  map (fun c => Z.of_nat (nat_of_ascii c)) (list_ascii_of_string s).

(** The message followed by the bit 1, zeros, and its length in bits on 64
    bits, a multiple of 64 bytes in all. *)
Definition pad (msg : list Z) : list Z :=
  let len := Z.of_nat (List.length msg) in
  let zeros := Z.to_nat ((55 - len) mod 64) in
  msg ++ [128] ++ repeat 0 zeros
      ++ map (fun i => Z.land (Z.shiftr (len * 8) (8 * (7 - Z.of_nat i))) 255)
             (seq 0 8).

Fixpoint words (n : nat) (bytes : list Z) : list Z :=
  match n, bytes with
  | S n', b0 :: b1 :: b2 :: b3 :: rest =>
      (b0 * 16777216 + b1 * 65536 + b2 * 256 + b3) :: words n' rest
  | _, _ => []
  end.

(** The message schedule, kept with the latest word first. *)
Fixpoint schedule (n : nat) (w : list Z) : list Z :=
  match n with
  | O => w
  | S n' =>
      let w15 := nth 14 w 0 in
      let w2 := nth 1 w 0 in
      let s0 := Z.lxor (Z.lxor (rotr 7 w15) (rotr 18 w15)) (Z.shiftr w15 3) in
      let s1 := Z.lxor (Z.lxor (rotr 17 w2) (rotr 19 w2)) (Z.shiftr w2 10) in
      schedule n' (mask32 (nth 15 w 0 + s0 + nth 6 w 0 + s1) :: w)
  end.

Definition round (st : list Z) (kw : Z * Z) : list Z :=
  match st with
  | [a; b; c; d; e; f; g; h] =>
      let S1 := Z.lxor (Z.lxor (rotr 6 e) (rotr 11 e)) (rotr 25 e) in
      let ch := Z.lxor (Z.land e f) (Z.land (Z.lxor e 4294967295) g) in
      let t1 := h + S1 + ch + fst kw + snd kw in
      let S0 := Z.lxor (Z.lxor (rotr 2 a) (rotr 13 a)) (rotr 22 a) in
      let maj := Z.lxor (Z.lxor (Z.land a b) (Z.land a c)) (Z.land b c) in
      [mask32 (t1 + S0 + maj); a; b; c; mask32 (d + t1); e; f; g]
  | _ => st
  end.

Definition compress (h : list Z) (block : list Z) : list Z :=
  let w := rev (schedule 48 (rev (words 16 block))) in
  let st := fold_left round (combine K w) h in
  map (fun p => mask32 (fst p + snd p)) (combine h st).

Fixpoint blocks (n : nat) (h : list Z) (bytes : list Z) : list Z :=
  match n with
  | O => h
  | S n' =>
      match bytes with
      | [] => h
      | _ => blocks n' (compress h (firstn 64 bytes)) (skipn 64 bytes)
      end
  end.

Definition hex_digit (n : Z) : ascii :=
  if n <? 10 then ascii_of_nat (48 + Z.to_nat n)
  else ascii_of_nat (87 + Z.to_nat n).

Fixpoint hex (width : nat) (n : Z) : string :=
  match width with
  | O => ""
  | S w => (hex w (n / 16) ++ String (hex_digit (n mod 16)) "")%string
  end.

Definition hexdigest (s : string) : string :=
  let bytes := pad (bytes_of s) in
  let h := blocks (List.length bytes) H0 bytes in
  fold_right (fun w acc => (hex 8 w ++ acc)%string) "" h.

End Sha256.

(** [strip] and [lower] on the ASCII characters; the other bytes of a text
    are kept as they are. *)
Module AsciiText.

Definition is_space (c : ascii) : bool :=
  let n := nat_of_ascii c in
  (Nat.eqb n 32) || ((9 <=? n) && (n <=? 13))%nat || ((28 <=? n) && (n <=? 31))%nat.

Fixpoint lstrip (s : string) : string :=
  match s with
  | String c rest => if is_space c then lstrip rest else s
  | EmptyString => s
  end.

Fixpoint rstrip (s : string) : string :=
  match s with
  | String c rest =>
      match rstrip rest with
      | EmptyString => if is_space c then EmptyString else String c EmptyString
      | r => String c r
      end
  | EmptyString => EmptyString
  end.

Definition strip (s : string) : string := rstrip (lstrip s).

Definition lower_char (c : ascii) : ascii :=
  let n := nat_of_ascii c in
  if ((65 <=? n) && (n <=? 90))%nat then ascii_of_nat (n + 32) else c.

Fixpoint lower (s : string) : string :=
  match s with
  | String c rest => String (lower_char c) (lower rest)
  | EmptyString => EmptyString
  end.

End AsciiText.

Definition sha_text : PyText := {|
  strip := AsciiText.strip;
  lower := AsciiText.lower;
  sha256_hexdigest := Sha256.hexdigest
|}.

(** Naive datetimes counted in microseconds from the midnight before day 1
    of the calendar, written as [YYYY-MM-DDTHH:MM:SS] with [.ffffff] when
    the microseconds are not 0, and read back from those two forms only. *)
Module Clock.

Definition of_parts (day h m s us : Z) : Z :=
  ((day * 24 + h) * 60 + m) * 60000000 + s * 1000000 + us.

Definition isoformat (t : Z) : string :=
  let us := t mod 1000000 in
  let secs := t / 1000000 in
  let day := secs / 86400 in
  let rest := secs mod 86400 in
  let fraction :=
    if us =? 0 then "" else ("." ++ Calendar.zero_padded 6 us)%string in
  (Calendar.isoformat day ++ "T"
   ++ Calendar.zero_padded 2 (rest / 3600) ++ ":"
   ++ Calendar.zero_padded 2 (rest / 60 mod 60) ++ ":"
   ++ Calendar.zero_padded 2 (rest mod 60)
   ++ fraction)%string.

Definition parse (s : string) : option parsed_datetime :=
  let n := String.length s in
  if negb (Nat.eqb n 19 || Nat.eqb n 26) then None
  else
    match Calendar.fromisoformat (substring 0 10 s), substring 10 1 s,
          Calendar.number (substring 11 2 s), substring 13 1 s,
          Calendar.number (substring 14 2 s), substring 16 1 s,
          Calendar.number (substring 17 2 s) with
    | Some day, "T"%string, Some h, ":"%string, Some m, ":"%string, Some sec =>
        if (h <? 24) && (m <? 60) && (sec <? 60) then
          if Nat.eqb n 19 then Some (Naive (of_parts day h m sec 0))
          else
            match substring 19 1 s, Calendar.number (substring 20 6 s) with
            | "."%string, Some us => Some (Naive (of_parts day h m sec us))
            | _, _ => None
            end
        else None
    | _, _, _, _, _, _, _ => None
    end.

End Clock.

Definition wall_clock : PyClock := {|
  datetime_isoformat := Clock.isoformat;
  datetime_parse := Clock.parse
|}.

(* ------------------------------------------------------------------ *)
(** ** Vocabulary of the properties                                    *)
(* ------------------------------------------------------------------ *)

Abbreviation p_start := subscriptions.current_period_start.
Abbreviation p_end := subscriptions.current_period_end.

(** [r] is a billing period of user [uid] with status ['active']. *)
Definition active_period (uid : Z) (db : database) (r : subscriptions.row) : Prop :=
  In r (subscriptions_tbl db)
  /\ subscriptions.user_id r = uid
  /\ subscriptions.status r = "active".

(** [l] is a latest active period of [uid]: none of them ends later. *)
Definition latest_active (uid : Z) (db : database) (l : subscriptions.row) : Prop :=
  active_period uid db l
  /\ forall r, active_period uid db r -> p_end r <= p_end l.

(** The day on which the period appended by [create_subscription_month]
    starts. *)
Definition new_period_start (today : date) (uid : Z) (db : database) : date :=
  match latest_by_end (filter (is_active_of uid) (subscriptions_tbl db)) with
  | Some l => if today <=? p_end l then add_days (p_end l) 1 else today
  | None => today
  end.

(** The row appended by [create_subscription_month]. *)
Definition new_period (today : date) (uid : Z) (db : database) : subscriptions.row :=
  subscriptions.mk (next_id (subscriptions_tbl db)) uid "active"
    (new_period_start today uid db)
    (add_days (new_period_start today uid db) (BILLING_DAYS - 1)) 0.

(** Successive payments of one user: the store after paying on each of the
    days [todays] in turn. *)
Fixpoint pay_many (todays : list date) (uid : Z) (db : database) : database :=
  match todays with
  | [] => db
  | t :: ts => pay_many ts uid (fst (create_subscription_month t uid db))
  end.

(** The rows that [pay_many] appends, in order. *)
Fixpoint new_rows (todays : list date) (uid : Z) (db : database)
  : list subscriptions.row :=
  match todays with
  | [] => []
  | t :: ts =>
      new_period t uid db
      :: new_rows ts uid (fst (create_subscription_month t uid db))
  end.

(** How the rows of successive payments follow one another: the next period
    starts after the previous one ends, on the very next day when the
    payment came no later than that end, and on the day of payment
    otherwise. *)
Inductive successive : list date -> list subscriptions.row -> Prop :=
| successive_nil : successive [] []
| successive_one t r : successive [t] [r]
| successive_cons t t' ts r r' rs :
    p_end r < p_start r' ->
    (t' <= p_end r -> p_start r' = add_days (p_end r) 1) ->
    (p_end r < t' -> p_start r' = t') ->
    successive (t' :: ts) (r' :: rs) ->
    successive (t :: t' :: ts) (r :: r' :: rs).

Section AccessVocabulary.

Context {L : PyLib}.

(** The trial of [u] is open on [today]: [trial_ends_at] holds the text of a
    day that is today or later. *)
Definition trial_open (today : date) (u : users.row) : Prop :=
  exists te ends,
    users.trial_ends_at u = Some te
    /\ te <> ""
    /\ datetime_fromisoformat te = Some ends
    /\ today <= ends.

End AccessVocabulary.

(** User [uid] has an active billing period that ends today or later. *)
Definition paid_up (today : date) (uid : Z) (db : database) : Prop :=
  exists r, active_period uid db r /\ today <= p_end r.

(** The denial of the guard: a flashed message and a redirect to the pricing
    page. *)
Definition denied : guarded :=
  RedirectTo "pricing" (MSG_NEEDS_SUBSCRIPTION, "error").

(** [r'] is the billing period [r] with, at most, another cancellation
    flag. *)
Definition same_period (r r' : subscriptions.row) : Prop :=
  subscriptions.id r' = subscriptions.id r
  /\ subscriptions.user_id r' = subscriptions.user_id r
  /\ subscriptions.status r' = subscriptions.status r
  /\ p_start r' = p_start r
  /\ p_end r' = p_end r.

(** What cancelling for [uid] makes of a row: the flag becomes 1 on an active
    row of [uid] whose flag was 0, and nothing else changes. *)
Definition cancelled (uid : Z) (r r' : subscriptions.row) : Prop :=
  same_period r r'
  /\ subscriptions.cancel_at_period_end r' =
     if (subscriptions.user_id r =? uid)
        && (subscriptions.status r =? "active")%string
        && (subscriptions.cancel_at_period_end r =? 0)
     then 1 else subscriptions.cancel_at_period_end r.

(** What a successful payment of [uid] makes of an existing row: the flag
    becomes 0 on an active row of [uid], and nothing else changes. *)
Definition uncancelled (uid : Z) (r r' : subscriptions.row) : Prop :=
  same_period r r'
  /\ subscriptions.cancel_at_period_end r' =
     if (subscriptions.user_id r =? uid)
        && (subscriptions.status r =? "active")%string
     then 0 else subscriptions.cancel_at_period_end r.

(** [u'] is the user [u] with the trial columns set to [started] and
    [ends]. *)
Definition with_trial (started ends : string) (u u' : users.row) : Prop :=
  users.id u' = users.id u
  /\ users.username u' = users.username u
  /\ users.email u' = users.email u
  /\ users.password_hash u' = users.password_hash u
  /\ users.role u' = users.role u
  /\ users.trial_started_at u' = Some started
  /\ users.trial_ends_at u' = Some ends.

(** The ways a call of the handler can end. *)
Inductive webhook_outcome (today : date) (db : database)
  : result (string * Z) * database -> Prop :=
| outcome_raise : webhook_outcome today db (Raise AttributeError, db)
| outcome_ignored : webhook_outcome today db (Ok ("ignored", 200), db)
| outcome_missing : webhook_outcome today db (Ok ("missing user_id", 400), db)
| outcome_ok n :
    webhook_outcome today db
      (Ok ("ok", 200),
       mkdb (users_tbl db)
            (map (uncancel_row n) (subscriptions_tbl db) ++ [new_period today n db])).

(** Sample data: the user and the period of the worked example, a user whose
    stored trial end is not a date, and gateway payloads. *)
Definition user42 : users.row :=
  users.mk 42 (Some "amina") (Some "amina@example.com") "5e884898da28" "teacher"
           None None.

Definition user7 : users.row :=
  users.mk 7 None (Some "karim@example.com") "03ac674216f3" "teacher"
           (Some "2024-05-01") (Some "not-a-date").

Definition user9 : users.row :=
  users.mk 9 None (Some "lina@example.com") "b3a8e0e1f9ab" "teacher"
           (Some "2024-01-02") (Some "2024-01-09").

Definition period_to_june_10 : subscriptions.row :=
  subscriptions.mk 1 42 "active" (Calendar.ymd2ord 2024 5 12) d_2024_06_10 0.

Definition db_example : database :=
  mkdb [user42; user7; user9] [period_to_june_10].

Definition payload_paid_42 : json :=
  JDict [("entity", JStr "checkout"); ("status", JStr "paid");
         ("metadata", JDict [("user_id", JStr "42")])].

Definition payload_pending_42 : json :=
  JDict [("entity", JStr "checkout"); ("status", JStr "pending");
         ("metadata", JDict [("user_id", JStr "42")])].

Definition payload_paid_no_number : json :=
  JDict [("entity", JStr "checkout"); ("status", JStr "paid");
         ("metadata", JDict [("user_id", JStr "abc")])].

Definition payload_nested_paid_42 : json :=
  JDict [("data", JDict [("entity", JStr "checkout"); ("status", JStr "success");
                         ("metadata", JDict [("user_id", JInt 42)])])].

Definition payload_array : json := JList [JInt 1].

Definition payload_metadata_text : json :=
  JDict [("entity", JStr "checkout"); ("status", JStr "paid");
         ("metadata", JStr "user 42")].

(** The last day user [uid] has paid for: the end of a latest active period,
    if there is one. *)
Definition paid_through (uid : Z) (db : database) : option date :=
  option_map p_end
    (latest_by_end (filter (is_active_of uid) (subscriptions_tbl db))).

Section DeliveryVocabulary.

Context {L : PyLib}.

(** The store after the gateway delivers the same event [k] times on the
    same day. *)
Fixpoint deliver (k : nat) (today : date) (body : request_body) (db : database)
  : database :=
  match k with
  | O => db
  | S k' => deliver k' today body (snd (chargily_webhook today body db))
  end.

End DeliveryVocabulary.

(** The non-null emails of the users, in table order. *)
Definition emails (db : database) : list string :=
  flat_map (fun u => match users.email u with
                     | Some e => [e]
                     | None => []
                     end)
           (users_tbl db).

(** No two users share an email, as [email TEXT UNIQUE] demands. *)
Definition emails_unique (db : database) : Prop := NoDup (emails db).

(** No two reset requests share a token, as [token TEXT UNIQUE] demands. *)
Definition tokens_unique (rows : list password_resets.row) : Prop :=
  NoDup (map password_resets.token rows).

Section AccountVocabulary.

Context {T : PyText}.

(** The account that [register] creates from a form. *)
Definition registered (f : form) (db : database) : users.row :=
  users.mk (next_rowid users.id (users_tbl db))
           (let s := strip (form_get_default f "username" "") in
            if (s =? "")%string then None else Some s)
           (Some (form_email f))
           (sha256_hexdigest (form_get_default f "password" ""))
           "teacher" None None.

End AccountVocabulary.

(** Sample accounts: the administrator that [init_db] seeds, with the
    password "admin", and a teacher with the password "s3cret". *)
Definition admin_user : users.row :=
  users.mk 1 (Some "admin") (Some "admin@example.com")
           "8c6976e5b5410415bde908bd4dee15dfb167a9c873fc4bb8a81f6f2ab448a918"
           "admin" None None.

Definition teacher_user : users.row :=
  users.mk 2 None (Some "amina@example.com")
           (Sha256.hexdigest "s3cret") "teacher" None None.

Definition site_example : site :=
  mksite (mkdb [admin_user; teacher_user] []) [] [].

Definition form_register_karim : form :=
  [("username", " Karim "); ("email", "  Karim@Example.com ");
   ("password", "pa55word")].

Definition noon_2024_06_10 : datetime := Clock.of_parts d_2024_06_10 12 0 0 0.

Definition form_forgot_amina : form := [("email", "Amina@example.com ")].

Definition form_new_password : form := [("new", "n3w-pass"); ("confirm", "n3w-pass")].

Definition form_login_amina_new : form :=
  [("email", "amina@example.com"); ("password", "n3w-pass")].

Definition form_change_password : form :=
  [("form_name", "change_password"); ("old", "s3cret"); ("new", "n3w-pass")].

Definition reset_url_example (token : string) : string :=
  ("http://localhost:5000/reset/" ++ token)%string.

(* ------------------------------------------------------------------ *)
(** ** The calendar instance on the days of the examples               *)
(* ------------------------------------------------------------------ *)

Example isoformat_2024_06_10 : Calendar.isoformat d_2024_06_10 = "2024-06-10".
Proof. reflexivity. Qed.

Example fromisoformat_2024_06_10 :
  Calendar.fromisoformat "2024-06-10" = Some d_2024_06_10.
Proof. reflexivity. Qed.

Example fromisoformat_garbage : Calendar.fromisoformat "not-a-date" = None.
Proof. reflexivity. Qed.

Example fromisoformat_february_30 : Calendar.fromisoformat "2023-02-30" = None.
Proof. reflexivity. Qed.

Example isoformat_leap_day :
  Calendar.isoformat (add_days (Calendar.ymd2ord 2024 2 28) 1) = "2024-02-29".
Proof. reflexivity. Qed.

Example int_of_str_42 : Calendar.int_of_str "42" = Some 42.
Proof. reflexivity. Qed.

Example int_of_str_abc : Calendar.int_of_str "abc" = None.
Proof. reflexivity. Qed.

(* ------------------------------------------------------------------ *)
(** ** Queries and period extension                                    *)
(* ------------------------------------------------------------------ *)

Section Queries.

Lemma is_active_of_spec uid r :
  is_active_of uid r = true <->
  subscriptions.user_id r = uid /\ subscriptions.status r = "active".
Proof.
  unfold is_active_of.
  rewrite andb_true_iff, Z.eqb_eq, String.eqb_eq. tauto.
Qed.

Lemma active_period_filter uid db r :
  active_period uid db r <->
  In r (filter (is_active_of uid) (subscriptions_tbl db)).
Proof.
  unfold active_period. rewrite filter_In, is_active_of_spec. tauto.
Qed.

Lemma latest_by_end_nil rows : latest_by_end rows = None -> rows = [].
Proof.
  destruct rows as [|r rest]; [reflexivity|].
  simpl. destruct (latest_by_end rest) as [m|]; [|discriminate].
  destruct (p_end m <=? p_end r); discriminate.
Qed.

Lemma latest_by_end_In rows m : latest_by_end rows = Some m -> In m rows.
Proof.
  revert m. induction rows as [|r rest IH]; simpl; intros m H; [discriminate|].
  destruct (latest_by_end rest) as [m'|].
  - destruct (p_end m' <=? p_end r); inversion H; subst; auto.
  - inversion H; auto.
Qed.

Lemma latest_by_end_max rows m :
  latest_by_end rows = Some m -> forall r, In r rows -> p_end r <= p_end m.
Proof.
  revert m. induction rows as [|r0 rest IH]; simpl; intros m H r Hr; [contradiction|].
  destruct (latest_by_end rest) as [m'|] eqn:E.
  - specialize (IH m' eq_refl).
    destruct (p_end m' <=? p_end r0) eqn:C; inversion H; subst.
    + apply Z.leb_le in C. destruct Hr as [->|Hr]; [lia|].
      specialize (IH r Hr). lia.
    + apply Z.leb_gt in C. destruct Hr as [->|Hr]; [lia|]. auto.
  - apply latest_by_end_nil in E. subst rest. inversion H; subst.
    destruct Hr as [->|[]]. lia.
Qed.

(** The [SELECT ... ORDER BY current_period_end DESC LIMIT 1] of
    [create_subscription_month] finds a latest active period. *)
Lemma latest_by_end_latest_active uid db l :
  latest_by_end (filter (is_active_of uid) (subscriptions_tbl db)) = Some l ->
  latest_active uid db l.
Proof.
  intros H. split.
  - apply active_period_filter. eapply latest_by_end_In; eauto.
  - intros r Hr. apply active_period_filter in Hr.
    eapply latest_by_end_max; eauto.
Qed.

Lemma latest_by_end_none_active uid db :
  latest_by_end (filter (is_active_of uid) (subscriptions_tbl db)) = None ->
  forall r, ~ active_period uid db r.
Proof.
  intros H r Hr. apply latest_by_end_nil in H.
  apply active_period_filter in Hr. rewrite H in Hr. exact Hr.
Qed.

Lemma latest_active_end uid db l l' :
  latest_active uid db l -> latest_active uid db l' -> p_end l = p_end l'.
Proof.
  intros [Hl Hml] [Hl' Hml']. specialize (Hml _ Hl'). specialize (Hml' _ Hl). lia.
Qed.

Lemma latest_by_end_snoc rows x :
  (forall r, In r rows -> p_end r < p_end x) ->
  latest_by_end (rows ++ [x]) = Some x.
Proof.
  induction rows as [|r rest IH]; simpl; intros H; [reflexivity|].
  rewrite IH by (intros; apply H; auto).
  destruct (p_end x <=? p_end r) eqn:C; [|reflexivity].
  apply Z.leb_le in C. specialize (H r (or_introl eq_refl)). lia.
Qed.

End Queries.

Section Extension.

Lemma create_subscription_month_eq today uid db :
  create_subscription_month today uid db =
  (mkdb (users_tbl db) (subscriptions_tbl db ++ [new_period today uid db]),
   p_end (new_period today uid db)).
Proof. reflexivity. Qed.

Lemma new_period_start_none today uid db :
  (forall r, ~ active_period uid db r) -> new_period_start today uid db = today.
Proof.
  intros H. unfold new_period_start.
  destruct (latest_by_end _) as [l|] eqn:E; [|reflexivity].
  apply latest_by_end_latest_active in E. destruct E as [E _].
  exfalso. eapply H; eauto.
Qed.

Lemma new_period_start_lapsed today uid db l :
  latest_active uid db l -> p_end l < today ->
  new_period_start today uid db = today.
Proof.
  intros Hl Hlt. unfold new_period_start.
  destruct (latest_by_end _) as [l'|] eqn:E; [|reflexivity].
  apply latest_by_end_latest_active in E.
  rewrite (latest_active_end _ _ _ _ E Hl).
  destruct (today <=? p_end l) eqn:C; [|reflexivity].
  apply Z.leb_le in C. lia.
Qed.

Lemma new_period_start_current today uid db l :
  latest_active uid db l -> today <= p_end l ->
  new_period_start today uid db = add_days (p_end l) 1.
Proof.
  intros Hl Hle. unfold new_period_start.
  destruct (latest_by_end _) as [l'|] eqn:E.
  - apply latest_by_end_latest_active in E.
    rewrite (latest_active_end _ _ _ _ E Hl).
    destruct (today <=? p_end l) eqn:C; [reflexivity|].
    apply Z.leb_gt in C. lia.
  - exfalso. eapply latest_by_end_none_active; [exact E|]. apply Hl.
Qed.

(** The appended period starts after every active period the user had. *)
Lemma new_period_start_after today uid db r :
  active_period uid db r -> p_end r < new_period_start today uid db.
Proof.
  intros Hr. unfold new_period_start.
  destruct (latest_by_end _) as [l|] eqn:E.
  - apply latest_by_end_latest_active in E. destruct E as [_ Hmax].
    specialize (Hmax r Hr).
    destruct (today <=? p_end l) eqn:C; unfold add_days.
    + lia.
    + apply Z.leb_gt in C. lia.
  - exfalso. eapply latest_by_end_none_active; eauto.
Qed.

Lemma new_period_is_active today uid db :
  is_active_of uid (new_period today uid db) = true.
Proof. apply is_active_of_spec. split; reflexivity. Qed.

Lemma pay_many_eq todays uid db :
  pay_many todays uid db =
  mkdb (users_tbl db) (subscriptions_tbl db ++ new_rows todays uid db).
Proof.
  revert db. induction todays as [|t ts IH]; intros db; simpl.
  - rewrite app_nil_r. destruct db; reflexivity.
  - rewrite IH. simpl. rewrite <- app_assoc. reflexivity.
Qed.

Lemma new_rows_length todays uid db :
  List.length (new_rows todays uid db) = List.length todays.
Proof.
  revert db. induction todays as [|t ts IH]; intros db; simpl; [reflexivity|].
  now rewrite IH.
Qed.

Lemma active_period_kept today uid db r :
  active_period uid db r ->
  active_period uid (fst (create_subscription_month today uid db)) r.
Proof.
  intros (Hin & Hu & Hs). split; [|split]; auto.
  simpl. apply in_or_app. auto.
Qed.

Lemma new_period_active_after today uid db :
  active_period uid (fst (create_subscription_month today uid db))
                (new_period today uid db).
Proof.
  split; [|split]; try reflexivity.
  simpl. apply in_or_app. right. left. reflexivity.
Qed.

(** Once appended, the new period is the user's latest active period. *)
Lemma new_period_latest today uid db :
  latest_active uid (fst (create_subscription_month today uid db))
                (new_period today uid db).
Proof.
  split; [apply new_period_active_after|].
  intros r (Hin & Hu & Hs). simpl in Hin. apply in_app_or in Hin.
  destruct Hin as [Hin|[<-|[]]]; [|apply Z.le_refl].
  assert (Hr : active_period uid db r) by (split; [|split]; assumption).
  pose proof (new_period_start_after today uid db r Hr) as H.
  simpl. unfold add_days, BILLING_DAYS. lia.
Qed.

(** Every row appended by later payments starts after every active period
    the user already had. *)
Lemma new_rows_after todays uid db r :
  active_period uid db r ->
  Forall (fun r' => p_end r < p_start r') (new_rows todays uid db).
Proof.
  revert db. induction todays as [|t ts IH]; intros db Hr; simpl; constructor.
  - simpl. apply new_period_start_after. exact Hr.
  - apply IH. apply active_period_kept. exact Hr.
Qed.

Lemma new_rows_successive todays uid db :
  successive todays (new_rows todays uid db).
Proof.
  revert db. induction todays as [|t ts IH]; intros db; [constructor|].
  destruct ts as [|t' ts].
  - simpl. constructor.
  - specialize (IH (fst (create_subscription_month t uid db))).
    change (new_rows (t :: t' :: ts) uid db)
      with (new_period t uid db
            :: new_rows (t' :: ts) uid (fst (create_subscription_month t uid db))).
    remember (fst (create_subscription_month t uid db)) as db1 eqn:Edb1.
    simpl in IH |- *. pose proof (new_period_latest t uid db) as Hl.
    rewrite <- Edb1 in Hl.
    constructor; try exact IH; simpl.
    + apply (new_period_start_after t' uid db1 (new_period t uid db)). apply Hl.
    + intros Hle. apply (new_period_start_current t' uid db1 _ Hl). exact Hle.
    + intros Hlt. apply (new_period_start_lapsed t' uid db1 _ Hl). exact Hlt.
Qed.

Lemma new_rows_disjoint todays uid db :
  ForallOrdPairs (fun r r' => p_end r < p_start r') (new_rows todays uid db).
Proof.
  revert db. induction todays as [|t ts IH]; intros db; simpl; constructor.
  - apply new_rows_after. apply new_period_active_after.
  - apply IH.
Qed.

Lemma new_rows_shape todays uid db :
  Forall (fun r => subscriptions.user_id r = uid
                   /\ subscriptions.status r = "active"
                   /\ subscriptions.cancel_at_period_end r = 0
                   /\ p_end r = add_days (p_start r) 29)
         (new_rows todays uid db).
Proof.
  revert db. induction todays as [|t ts IH]; intros db; simpl; constructor.
  - repeat split.
  - apply IH.
Qed.

End Extension.

(* ------------------------------------------------------------------ *)
(** ** The claims about period extension                               *)
(* ------------------------------------------------------------------ *)


(** C7.  The appended period spans exactly 29 days from its first to its last
    day, whatever day it starts on, and the call returns that last day. *)
Theorem create_subscription_month_length (today : date) (uid : Z) (db : database) :
  exists row,
    subscriptions_tbl (fst (create_subscription_month today uid db))
      = subscriptions_tbl db ++ [row]
    /\ p_end row - p_start row = 29
    /\ p_end row = add_days (p_start row) (BILLING_DAYS - 1)
    /\ snd (create_subscription_month today uid db) = p_end row.
Proof.
  exists (new_period today uid db). split; [reflexivity|].
  simpl. unfold add_days, BILLING_DAYS. repeat split; lia.
Qed.

(** C9.  Extension only appends: one call leaves the users and every
    existing billing row as they were and adds one row at the end; the rows
    added by successive payments of one user follow one another day after
    day, never overlap each other, and start after every active period the
    user already had. *)
Theorem create_subscription_month_append_only (uid : Z) (db : database) :
  (forall today,
     exists row,
       fst (create_subscription_month today uid db)
         = mkdb (users_tbl db) (subscriptions_tbl db ++ [row])
       /\ forall i r, nth_error (subscriptions_tbl db) i = Some r ->
            nth_error
              (subscriptions_tbl (fst (create_subscription_month today uid db))) i
              = Some r)
  /\ (forall todays,
        exists rows,
          pay_many todays uid db
            = mkdb (users_tbl db) (subscriptions_tbl db ++ rows)
          /\ List.length rows = List.length todays
          /\ successive todays rows
          /\ ForallOrdPairs (fun r r' => p_end r < p_start r') rows
          /\ (forall r, active_period uid db r ->
                        Forall (fun r' => p_end r < p_start r') rows)).
Proof.
  split.
  - intros today. exists (new_period today uid db). split; [reflexivity|].
    intros i r H. simpl. rewrite nth_error_app1; [exact H|].
    apply nth_error_Some. congruence.
  - intros todays. exists (new_rows todays uid db).
    split; [apply pay_many_eq|].
    split; [apply new_rows_length|].
    split; [apply new_rows_successive|].
    split; [apply new_rows_disjoint|].
    intros r Hr. apply new_rows_after. exact Hr.
Qed.

(** The worked example: with a period running to 2024-06-10, extending on
    2024-06-01 appends 2024-06-11 .. 2024-07-10; extending again on
    2024-08-01 appends 2024-08-01 .. 2024-08-30. *)
Example extension_worked_example :
  map (fun r => (Calendar.isoformat (p_start r), Calendar.isoformat (p_end r)))
      (new_rows [d_2024_06_01; d_2024_08_01] 42 db_example)
  = [("2024-06-11", "2024-07-10"); ("2024-08-01", "2024-08-30")].
Proof. vm_compute. reflexivity. Qed.

(** A payment made while the last period is still running continues it
    without a gap. *)
Example extension_early_renewals :
  map (fun r => (Calendar.isoformat (p_start r), Calendar.isoformat (p_end r)))
      (new_rows [d_2024_06_01; d_2024_06_01; d_2024_06_10] 42 db_example)
  = [("2024-06-11", "2024-07-10"); ("2024-07-11", "2024-08-09");
     ("2024-08-10", "2024-09-08")].
Proof. vm_compute. reflexivity. Qed.

(* ------------------------------------------------------------------ *)
(** ** The access guard                                                *)
(* ------------------------------------------------------------------ *)

Section Access.

Context {L : PyLib}.

Lemma has_trial_access_spec today u :
  has_trial_access today (Some u) = true <-> trial_open today u.
Proof.
  unfold has_trial_access, trial_open.
  destruct (users.trial_ends_at u) as [te|].
  - destruct (te =? "")%string eqn:E.
    + apply String.eqb_eq in E. subst te. split; [discriminate|].
      intros (te & ends & H & Hne & _). inversion H; subst. congruence.
    + apply String.eqb_neq in E.
      destruct (datetime_fromisoformat te) as [ends|] eqn:P.
      * rewrite Z.leb_le. split.
        -- intros H. exists te, ends. auto.
        -- intros (te' & ends' & H & _ & P' & Hle).
           inversion H; subst te'. rewrite P in P'. inversion P'; subst. exact Hle.
      * split; [discriminate|].
        intros (te' & ends' & H & _ & P' & _).
        inversion H; subst te'. rewrite P in P'. discriminate.
  - split; [discriminate|]. intros (te & ends & H & _). discriminate.
Qed.

Lemma has_trial_access_none today : has_trial_access today None = false.
Proof. reflexivity. Qed.

Lemma fetched_latest_by_end rows :
  fetched (latest_by_end rows) = true <-> exists r, In r rows.
Proof.
  destruct (latest_by_end rows) as [m|] eqn:E; simpl.
  - split; [|reflexivity]. intros _. exists m. eapply latest_by_end_In; eauto.
  - apply latest_by_end_nil in E. subst rows.
    split; [discriminate|]. intros [r []].
Qed.

Lemma active_subscription_for_fetched today uid db :
  fetched (active_subscription_for today uid db) = true <-> paid_up today uid db.
Proof.
  unfold active_subscription_for, paid_up. rewrite fetched_latest_by_end.
  split; intros [r H]; exists r.
  - apply filter_In in H. destruct H as [Hin H].
    apply andb_true_iff in H. destruct H as [Ha Hle].
    apply is_active_of_spec in Ha. apply Z.leb_le in Hle.
    unfold active_period. tauto.
  - destruct H as [(Hin & Hu & Hs) Hle]. apply filter_In. split; [exact Hin|].
    apply andb_true_iff. split; [apply is_active_of_spec; auto|now apply Z.leb_le].
Qed.

(** The row that [active_subscription_for] returns is an active period of
    the user that covers today and ends last among those. *)
Lemma active_subscription_for_some today uid db r :
  active_subscription_for today uid db = Some r ->
  active_period uid db r /\ today <= p_end r
  /\ forall r', active_period uid db r' -> today <= p_end r' -> p_end r' <= p_end r.
Proof.
  unfold active_subscription_for. intros H.
  pose proof (latest_by_end_In _ _ H) as Hin.
  apply filter_In in Hin. destruct Hin as [Hin Hb].
  apply andb_true_iff in Hb. destruct Hb as [Ha Hle].
  apply is_active_of_spec in Ha. apply Z.leb_le in Hle.
  split; [unfold active_period; tauto|]. split; [exact Hle|].
  intros r' (Hin' & Hu' & Hs') Hle'.
  apply (latest_by_end_max _ _ H). apply filter_In. split; [exact Hin'|].
  apply andb_true_iff. split; [apply is_active_of_spec; auto|now apply Z.leb_le].
Qed.

Lemma select_user_some db sid u :
  select_user db sid = Some u ->
  sid = Some (users.id u) /\ In u (users_tbl db).
Proof.
  destruct sid as [n|]; simpl; [|discriminate].
  intros H. apply find_some in H. destruct H as [Hin Heq].
  apply Z.eqb_eq in Heq. subst n. auto.
Qed.

Lemma subscription_required_cases today sid db :
  subscription_required today sid db = CallView
  \/ subscription_required today sid db = denied.
Proof.
  unfold subscription_required, denied.
  destruct (select_user db sid) as [u|]; [|auto].
  destruct (has_trial_access today (Some u)
            || fetched (active_subscription_for today (users.id u) db)); auto.
Qed.

Lemma subscription_required_spec today sid db :
  subscription_required today sid db = CallView <->
  exists u, select_user db sid = Some u
            /\ (trial_open today u \/ paid_up today (users.id u) db).
Proof.
  unfold subscription_required.
  destruct (select_user db sid) as [u|].
  - destruct (has_trial_access today (Some u)
              || fetched (active_subscription_for today (users.id u) db)) eqn:E.
    + split; [|reflexivity]. intros _. exists u. split; [reflexivity|].
      apply orb_true_iff in E. destruct E as [E|E].
      * left. now apply has_trial_access_spec.
      * right. now apply active_subscription_for_fetched.
    + split; [discriminate|]. intros (u' & Hu & H). inversion Hu; subst u'.
      apply orb_false_iff in E. destruct E as [E1 E2]. destruct H as [H|H].
      * apply has_trial_access_spec in H. congruence.
      * apply active_subscription_for_fetched in H. congruence.
  - split; [discriminate|]. intros (u & Hu & _). discriminate.
Qed.

Lemma subscription_required_unknown today sid db :
  select_user db sid = None -> subscription_required today sid db = denied.
Proof. unfold subscription_required. intros ->. reflexivity. Qed.

End Access.


(** C10.  A stored [trial_ends_at] that is not empty and does not parse as an
    ISO date gives no trial access instead of an error: the guard then
    decides on the billing periods alone. *)
Theorem has_trial_access_unparsable {L : PyLib} (today : date) (u : users.row)
    (te : string) :
  users.trial_ends_at u = Some te ->
  te <> "" ->
  datetime_fromisoformat te = None ->
  has_trial_access today (Some u) = false
  /\ forall sid db,
       select_user db sid = Some u ->
       (subscription_required today sid db = CallView <->
        paid_up today (users.id u) db)
       /\ (subscription_required today sid db = CallView
           \/ subscription_required today sid db = denied).
Proof.
  intros Hte Hne Hparse.
  assert (Hno : has_trial_access today (Some u) = false).
  { unfold has_trial_access. rewrite Hte.
    apply String.eqb_neq in Hne. rewrite Hne, Hparse. reflexivity. }
  split; [exact Hno|].
  intros sid db Hsel. split; [|apply subscription_required_cases].
  rewrite subscription_required_spec. split.
  - intros (u' & Hu & [H|H]).
    + rewrite Hsel in Hu. inversion Hu; subst u'.
      apply has_trial_access_spec in H. congruence.
    + rewrite Hsel in Hu. inversion Hu; subst u'. exact H.
  - intros H. exists u. auto.
Qed.

Lemma has_trial_access_unparsable_witness :
  users.trial_ends_at user7 = Some "not-a-date"
  /\ "not-a-date" <> ""
  /\ @datetime_fromisoformat cpython "not-a-date" = None
  /\ @has_trial_access cpython d_2024_06_01 (Some user7) = false.
Proof.
  split; [reflexivity|]. split; [discriminate|]. split; [reflexivity|].
  apply (proj1 (@has_trial_access_unparsable cpython d_2024_06_01 user7
                  "not-a-date" eq_refl ltac:(discriminate) eq_refl)).
Defined.

(* ------------------------------------------------------------------ *)
(** ** Trial activation and cancellation                               *)
(* ------------------------------------------------------------------ *)

Section Subscribe.

Context {L : PyLib}.

Lemma find_map_same {A : Type} (p : A -> bool) (f : A -> A) (l : list A) :
  (forall a, p (f a) = p a) ->
  find p (map f l) = option_map f (find p l).
Proof.
  intros H. induction l as [|a l IH]; simpl; [reflexivity|].
  rewrite H. destruct (p a); [reflexivity|exact IH].
Qed.

Lemma select_user_update_trial db started ends uid n :
  select_user (update_trial db started ends uid) (Some n) =
  option_map (set_trial started ends uid) (select_user db (Some n)).
Proof.
  unfold select_user, update_trial. simpl.
  apply find_map_same. intros u. unfold set_trial.
  destruct (users.id u =? uid); reflexivity.
Qed.

Lemma subscribe_trial_used today uid db u :
  select_user db (Some uid) = Some u ->
  text_truthy (users.trial_started_at u) = true ->
  subscribe today (Some "start_trial") uid db =
  (Ok (mkredirect (MSG_TRIAL_USED, "error") "account"), db).
Proof. intros Hu Ht. unfold subscribe. rewrite Hu, Ht. reflexivity. Qed.

Lemma subscribe_trial_fresh today uid db u :
  select_user db (Some uid) = Some u ->
  text_truthy (users.trial_started_at u) = false ->
  subscribe today (Some "start_trial") uid db =
  (Ok (mkredirect (MSG_TRIAL_STARTED (isoformat (add_days today TRIAL_DAYS)), "ok")
                  "account"),
   update_trial db (isoformat today) (isoformat (add_days today TRIAL_DAYS)) uid).
Proof. intros Hu Ht. unfold subscribe. rewrite Hu, Ht. reflexivity. Qed.

Lemma update_trial_selected db started ends uid u :
  select_user db (Some uid) = Some u ->
  exists u',
    select_user (update_trial db started ends uid) (Some uid) = Some u'
    /\ with_trial started ends u u'.
Proof.
  intros Hu. rewrite select_user_update_trial, Hu. simpl.
  apply select_user_some in Hu. destruct Hu as [Hid _].
  assert (E : (users.id u =? uid) = true) by (apply Z.eqb_eq; congruence).
  unfold set_trial. rewrite E.
  eexists. split; [reflexivity|]. repeat split.
Qed.

Lemma update_trial_others db started ends uid n :
  n <> uid ->
  select_user (update_trial db started ends uid) (Some n) = select_user db (Some n).
Proof.
  intros Hn. rewrite select_user_update_trial.
  destruct (select_user db (Some n)) as [u|] eqn:Hu; [|reflexivity].
  apply select_user_some in Hu. destruct Hu as [Hid _]. inversion Hid as [Hid'].
  simpl. unfold set_trial. rewrite <- Hid'. apply Z.eqb_neq in Hn.
  rewrite Hn. reflexivity.
Qed.

Lemma cancel_row_idem uid r : cancel_row uid (cancel_row uid r) = cancel_row uid r.
Proof.
  unfold cancel_row.
  destruct (is_active_of uid r && (subscriptions.cancel_at_period_end r =? 0)) eqn:E.
  - unfold is_active_of in *. simpl. rewrite andb_false_r. reflexivity.
  - rewrite E. reflexivity.
Qed.

Lemma cancel_row_cancelled uid r : cancelled uid r (cancel_row uid r).
Proof.
  unfold cancelled, cancel_row, is_active_of, same_period.
  destruct ((subscriptions.user_id r =? uid)
            && (subscriptions.status r =? "active")%string
            && (subscriptions.cancel_at_period_end r =? 0)); simpl; tauto.
Qed.

Lemma uncancel_row_uncancelled uid r : uncancelled uid r (uncancel_row uid r).
Proof.
  unfold uncancelled, uncancel_row, is_active_of, same_period.
  destruct ((subscriptions.user_id r =? uid)
            && (subscriptions.status r =? "active")%string); simpl; tauto.
Qed.

Lemma Forall2_map_rel {A : Type} (R : A -> A -> Prop) (f : A -> A) (l : list A) :
  (forall a, R a (f a)) -> Forall2 R l (map f l).
Proof. intros H. induction l; simpl; constructor; auto. Qed.

Lemma update_cancel_idem db uid :
  update_cancel (update_cancel db uid) uid = update_cancel db uid.
Proof.
  unfold update_cancel. simpl. f_equal. rewrite map_map.
  apply map_ext. intros r. apply cancel_row_idem.
Qed.

(** A rewrite of the billing rows that keeps, row by row, the user, the
    status and the end of the period does not change who is paid up. *)
Lemma paid_up_map today uid us us' rows (f : subscriptions.row -> subscriptions.row) :
  (forall r, same_period r (f r)) ->
  paid_up today uid (mkdb us (map f rows)) <-> paid_up today uid (mkdb us' rows).
Proof.
  intros Hf. unfold paid_up, active_period. simpl. split.
  - intros (r' & (Hin & Hu & Hs) & Hle). apply in_map_iff in Hin.
    destruct Hin as (r & <- & Hin). destruct (Hf r) as (_ & Hu' & Hs' & _ & He').
    exists r. rewrite <- Hu', <- Hs', <- He'. auto.
  - intros (r & (Hin & Hu & Hs) & Hle). exists (f r).
    destruct (Hf r) as (_ & Hu' & Hs' & _ & He').
    rewrite Hu', Hs', He'. repeat split; auto. now apply in_map.
Qed.

Lemma subscription_required_map today sid us rows
    (f : subscriptions.row -> subscriptions.row) :
  (forall r, same_period r (f r)) ->
  subscription_required today sid (mkdb us (map f rows)) =
  subscription_required today sid (mkdb us rows).
Proof.
  intros Hf. unfold subscription_required.
  change (select_user (mkdb us (map f rows)) sid)
    with (select_user (mkdb us rows) sid).
  destruct (select_user (mkdb us rows) sid) as [u|]; [|reflexivity].
  replace (fetched (active_subscription_for today (users.id u) (mkdb us (map f rows))))
    with (fetched (active_subscription_for today (users.id u) (mkdb us rows)));
    [reflexivity|].
  apply eq_true_iff_eq. rewrite !active_subscription_for_fetched.
  symmetry. apply paid_up_map. exact Hf.
Qed.

Lemma subscribe_cancel_eq today uid db :
  subscribe today (Some "cancel") uid db =
  (Ok (mkredirect (MSG_CANCEL, "ok") "account"), update_cancel db uid).
Proof. reflexivity. Qed.

End Subscribe.



(** Activation on 2024-06-01 for a user without a trial, then a second
    attempt two months later. *)
Example start_trial_then_again :
  let db1 := snd (@subscribe cpython d_2024_06_01 (Some "start_trial") 42 db_example) in
  option_map (fun u => (users.trial_started_at u, users.trial_ends_at u))
             (select_user db1 (Some 42))
    = Some (Some "2024-06-01", Some "2024-06-08")
  /\ @subscribe cpython d_2024_08_01 (Some "start_trial") 42 db1
     = (Ok (mkredirect (MSG_TRIAL_USED, "error") "account"), db1).
Proof. split; reflexivity. Qed.

(** C8.  Cancelling answers with the cancellation message; doing it again
    changes nothing more; it leaves the users alone and, row by row, keeps
    the id, the user, the status and both days of every billing period,
    raising the flag only on active rows of the user whose flag was 0; the
    guard of the protected pages decides as before on every day. *)
Theorem subscribe_cancel_idempotent {L : PyLib} (today today' : date) (uid : Z)
    (db : database) :
  let db1 := snd (subscribe today (Some "cancel") uid db) in
  fst (subscribe today (Some "cancel") uid db)
    = Ok (mkredirect (MSG_CANCEL, "ok") "account")
  /\ snd (subscribe today' (Some "cancel") uid db1) = db1
  /\ users_tbl db1 = users_tbl db
  /\ Forall2 (cancelled uid) (subscriptions_tbl db) (subscriptions_tbl db1)
  /\ forall day sid,
       subscription_required day sid db1 = subscription_required day sid db.
Proof.
  rewrite !subscribe_cancel_eq. simpl.
  split; [reflexivity|].
  split; [apply update_cancel_idem|].
  split; [reflexivity|].
  split.
  - apply Forall2_map_rel. apply cancel_row_cancelled.
  - intros day sid. unfold update_cancel. destruct db as [us rows]. simpl.
    apply subscription_required_map. intros r. apply cancel_row_cancelled.
Qed.

(* ------------------------------------------------------------------ *)
(** ** The payment webhook                                             *)
(* ------------------------------------------------------------------ *)

Section Webhook.

Context {L : PyLib}.

Lemma or_dict_default md : or_ (JDict md) (JDict []) = JDict md.
Proof. destruct md; reflexivity. Qed.

Lemma get_raise v k e : get v k = Raise e -> e = AttributeError.
Proof. destruct v; simpl; intros H; inversion H; reflexivity. Qed.

Lemma get_ok v k x : get v k = Ok x -> exists kv, v = JDict kv /\ x = dict_get kv k.
Proof. destruct v; simpl; intros H; inversion H. eauto. Qed.

Lemma in_strs_In s ss : in_strs (JStr s) ss = true <-> In s ss.
Proof.
  unfold in_strs. rewrite existsb_exists. split.
  - intros (x & Hin & Heq). simpl in Heq. apply String.eqb_eq in Heq. now subst.
  - intros H. exists s. split; [exact H|]. simpl. apply String.eqb_refl.
Qed.

Lemma eq_str_spec v s : eq_str v s = true <-> v = JStr s.
Proof.
  destruct v; simpl; try (split; [discriminate|intros H; inversion H]).
  rewrite String.eqb_eq. split; [now intros ->|]. intros H. now inversion H.
Qed.

(** What the handler does to the store on an accepted payment of [n]. *)
Lemma paid_store_eq today n db :
  update_uncancel (fst (create_subscription_month today n db)) n =
  mkdb (users_tbl db)
       (map (uncancel_row n) (subscriptions_tbl db) ++ [new_period today n db]).
Proof.
  rewrite create_subscription_month_eq. unfold update_uncancel.
  cbn [fst users_tbl subscriptions_tbl]. rewrite map_app.
  cbn [map]. unfold uncancel_row at 2.
  rewrite new_period_is_active. reflexivity.
Qed.

(** A payload with the fields at the top level. *)
Lemma chargily_webhook_top_level today kv entity db :
  dict_get kv "entity" = entity ->
  truthy entity = true ->
  chargily_webhook today (Some (JDict kv)) db =
  match get (or_ (or_ (dict_get kv "metadata") (JDict [])) (JDict [])) "user_id" with
  | Raise e => (Raise e, db)
  | Ok user_id =>
      if eq_str entity "checkout"
         && in_strs (dict_get kv "status") ["paid"; "succeeded"; "success"]
      then
        match py_int user_id with
        | Raise _ => (Ok ("missing user_id", 400), db)
        | Ok n =>
            (Ok ("ok", 200),
             update_uncancel (fst (create_subscription_month today n db)) n)
        end
      else (Ok ("ignored", 200), db)
  end.
Proof.
  intros He Ht. unfold chargily_webhook. simpl get_json. cbv iota beta.
  assert (Hkv : or_ (JDict kv) (JDict []) = JDict kv) by apply or_dict_default.
  rewrite Hkv. simpl get. cbv iota beta. rewrite He, Ht. simpl negb.
  cbv iota beta. simpl andb. cbv iota beta.
  destruct (get _ "user_id"); reflexivity.
Qed.

Lemma webhook_paid_store today kv s md n db :
  dict_get kv "entity" = JStr "checkout" ->
  dict_get kv "status" = JStr s ->
  In s ["paid"; "succeeded"; "success"] ->
  dict_get kv "metadata" = JDict md ->
  py_int (dict_get md "user_id") = Ok n ->
  chargily_webhook today (Some (JDict kv)) db =
  (Ok ("ok", 200),
   mkdb (users_tbl db)
        (map (uncancel_row n) (subscriptions_tbl db) ++ [new_period today n db])).
Proof.
  intros He Hs Hin Hm Hn.
  rewrite (chargily_webhook_top_level today kv (JStr "checkout") db He eq_refl).
  rewrite Hm, !or_dict_default. cbn [get].
  rewrite Hs. apply in_strs_In in Hin. rewrite Hin.
  change (eq_str (JStr "checkout") "checkout") with true. cbn [andb].
  rewrite Hn, paid_store_eq. reflexivity.
Qed.

Lemma chargily_webhook_missing_user_id today kv s md e db :
  dict_get kv "entity" = JStr "checkout" ->
  dict_get kv "status" = JStr s ->
  In s ["paid"; "succeeded"; "success"] ->
  dict_get kv "metadata" = JDict md ->
  py_int (dict_get md "user_id") = Raise e ->
  chargily_webhook today (Some (JDict kv)) db = (Ok ("missing user_id", 400), db).
Proof.
  intros He Hs Hin Hm Hn.
  rewrite (chargily_webhook_top_level today kv (JStr "checkout") db He eq_refl).
  rewrite Hm, !or_dict_default. cbn [get].
  rewrite Hs. apply in_strs_In in Hin. rewrite Hin.
  change (eq_str (JStr "checkout") "checkout") with true. cbn [andb].
  rewrite Hn. reflexivity.
Qed.

Lemma chargily_webhook_outcome today body db :
  webhook_outcome today db (chargily_webhook today body db).
Proof.
  unfold chargily_webhook.
  destruct (get_json true true body) as [parsed|e] eqn:Ej.
  - generalize (or_ parsed (JDict [])). intros evt. unfold Py.bind.
    destruct (get evt "entity") as [entity|e] eqn:E1;
      [|apply get_raise in E1; subst; constructor].
    destruct (get evt "status") as [status|e] eqn:E2;
      [|apply get_raise in E2; subst; constructor].
    destruct (get evt "metadata") as [md|e] eqn:E3;
      [|apply get_raise in E3; subst; constructor].
    assert (Hfin : forall entity status metadata,
      webhook_outcome today db
        (try! user_id := get (or_ metadata (JDict [])) "user_id" on db in
         if eq_str entity "checkout"
            && in_strs status ["paid"; "succeeded"; "success"]
         then
           match py_int user_id with
           | Raise _ => (Ok ("missing user_id", 400), db)
           | Ok n =>
               let (db1, _) := create_subscription_month today n db in
               (Ok ("ok", 200), update_uncancel db1 n)
           end
         else (Ok ("ignored", 200), db))).
    { intros en st me.
      destruct (get _ "user_id") as [uid|e] eqn:E;
        [|apply get_raise in E; subst; constructor].
      destruct (eq_str en "checkout" && in_strs st _); [|constructor].
      destruct (py_int uid) as [n|e]; [|constructor].
      pose proof (paid_store_eq today n db) as Hs.
      rewrite create_subscription_month_eq in *. cbn [fst] in Hs.
      rewrite Hs. constructor. }
    destruct (negb (truthy entity)).
    + destruct (get evt "data") as [data|e] eqn:E4;
        [|apply get_raise in E4; subst; constructor].
      cbn [andb]. destruct (is_dict data).
      * destruct (get data "entity") as [e1|e] eqn:E5;
          [|apply get_raise in E5; subst; constructor].
        destruct (get data "status") as [s1|e] eqn:E6;
          [|apply get_raise in E6; subst; constructor].
        destruct (get data "metadata") as [m1|e] eqn:E7;
          [|apply get_raise in E7; subst; constructor].
        apply Hfin.
      * apply Hfin.
    + cbn [andb]. apply Hfin.
  - destruct body; simpl in Ej; discriminate.
Qed.

(** A body that is not valid JSON is taken for an empty event. *)
Lemma chargily_webhook_not_json today db :
  chargily_webhook today None db = (Ok ("ignored", 200), db).
Proof. reflexivity. Qed.

(** So is a body that decodes to a false value: [null], [false], [0], [""],
    an empty array or object. *)
Lemma chargily_webhook_falsy today v db :
  truthy v = false ->
  chargily_webhook today (Some v) db = (Ok ("ignored", 200), db).
Proof.
  intros H. unfold chargily_webhook. simpl get_json. cbv iota beta zeta.
  assert (E : or_ v (JDict []) = JDict []) by (unfold or_; now rewrite H).
  rewrite E. reflexivity.
Qed.

(** A body that decodes to a true value other than an object makes the
    handler raise. *)
Lemma chargily_webhook_not_object today v db :
  truthy v = true -> is_dict v = false ->
  chargily_webhook today (Some v) db = (Raise AttributeError, db).
Proof.
  intros H Hd. unfold chargily_webhook. simpl get_json. cbv iota beta zeta.
  assert (E : or_ v (JDict []) = v) by (unfold or_; now rewrite H).
  rewrite E. destruct v; try discriminate; reflexivity.
Qed.

(** So does a [metadata] field that holds a true value other than an
    object, whatever the event is. *)
Lemma chargily_webhook_metadata_not_object today kv entity md db :
  dict_get kv "entity" = entity -> truthy entity = true ->
  dict_get kv "metadata" = md -> truthy md = true -> is_dict md = false ->
  chargily_webhook today (Some (JDict kv)) db = (Raise AttributeError, db).
Proof.
  intros He Ht Hm Htm Hd.
  rewrite (chargily_webhook_top_level today kv entity db He Ht).
  rewrite Hm. unfold or_. rewrite Htm, Htm.
  destruct md; try discriminate; reflexivity.
Qed.

End Webhook.

Lemma uncancel_row_cleared n r0 r :
  uncancel_row n r0 = r ->
  subscriptions.user_id r = n -> subscriptions.status r = "active" ->
  subscriptions.cancel_at_period_end r = 0.
Proof.
  unfold uncancel_row. intros <-.
  destruct (is_active_of n r0) eqn:E; [reflexivity|].
  intros Hu Hs. assert (is_active_of n r0 = true) by (apply is_active_of_spec; auto).
  congruence.
Qed.



(** The same payment announced under [data], as other versions of the
    gateway send it. *)
Lemma webhook_nested_paid {L : PyLib} (today : date)
    (kv dkv md : list (string * json)) (s : string) (n : Z) (db : database) :
  truthy (dict_get kv "entity") = false ->
  dict_get kv "data" = JDict dkv ->
  dict_get dkv "entity" = JStr "checkout" ->
  dict_get dkv "status" = JStr s ->
  In s ["paid"; "succeeded"; "success"] ->
  dict_get dkv "metadata" = JDict md ->
  py_int (dict_get md "user_id") = Ok n ->
  chargily_webhook today (Some (JDict kv)) db =
  (Ok ("ok", 200),
   mkdb (users_tbl db)
        (map (uncancel_row n) (subscriptions_tbl db) ++ [new_period today n db])).
Proof.
  intros Hte Hd He Hs Hin Hm Hn.
  assert (Hne : md <> []) by (intros ->; discriminate).
  unfold chargily_webhook. simpl get_json. cbv iota beta zeta.
  assert (E : or_ (JDict kv) (JDict []) = JDict kv) by apply or_dict_default.
  rewrite E. cbn [get]. rewrite Hte. cbn [negb]. rewrite Hd. cbn [is_dict andb get].
  unfold Py.bind. rewrite He, Hs, Hm.
  assert (Em : forall x, or_ (JDict md) x = JDict md).
  { intros x. unfold or_. destruct md; [congruence|reflexivity]. }
  rewrite Em, Em. cbn [get]. unfold or_ at 1 2. cbn [truthy].
  assert (Es : (s =? "")%string = false).
  { apply String.eqb_neq. intros ->. simpl in Hin. intuition discriminate. }
  rewrite Es. cbn [negb String.eqb Ascii.eqb Bool.eqb].
  apply in_strs_In in Hin. rewrite Hin.
  change (eq_str (JStr "checkout") "checkout") with true. cbn [andb].
  rewrite Hn, <- paid_store_eq. reflexivity.
Qed.

(** C4 (the handler does raise).  A body that decodes to a non-empty array,
    and an object whose [metadata] is a text, both end the handler with an
    [AttributeError] instead of a response. *)
Theorem chargily_webhook_raises {L : PyLib} (today : date) (db : database) :
  chargily_webhook today (Some payload_array) db = (Raise AttributeError, db)
  /\ chargily_webhook today (Some payload_metadata_text) db
     = (Raise AttributeError, db).
Proof. split; reflexivity. Qed.

(** C5 (no "invalid json" answer).  A body that is not valid JSON is answered
    "ignored" / 200, and no call is ever answered "invalid json". *)
Theorem chargily_webhook_invalid_json {L : PyLib} (today : date) (db : database) :
  chargily_webhook today None db = (Ok ("ignored", 200), db)
  /\ forall body answer db',
       chargily_webhook today body db <> (Ok ("invalid json", answer), db').
Proof.
  split; [reflexivity|].
  intros body answer db' H.
  pose proof (chargily_webhook_outcome today body db) as Ho.
  rewrite H in Ho. inversion Ho.
Qed.

(** The only 400 of the handler is "missing user_id", and it leaves the
    store as it was; every other response is a 200. *)
Lemma chargily_webhook_statuses {L : PyLib} today body db text code db' :
  chargily_webhook today body db = (Ok (text, code), db') ->
  (code = 400 /\ text = "missing user_id" /\ db' = db)
  \/ (code = 200 /\ text = "ignored" /\ db' = db)
  \/ (code = 200 /\ text = "ok").
Proof.
  intros H. pose proof (chargily_webhook_outcome today body db) as Ho.
  rewrite H in Ho. inversion Ho; subst; auto.
Qed.

(** A raising call leaves the store as it was. *)
Lemma chargily_webhook_raise_keeps_store {L : PyLib} today body db e db' :
  chargily_webhook today body db = (Raise e, db') ->
  e = AttributeError /\ db' = db.
Proof.
  intros H. pose proof (chargily_webhook_outcome today body db) as Ho.
  rewrite H in Ho. inversion Ho; subst; auto.
Qed.

(** The payloads of the specification's examples, on the sample store. *)
Example webhook_pending :
  @chargily_webhook cpython d_2024_06_01 (Some payload_pending_42) db_example
  = (Ok ("ignored", 200), db_example).
Proof. reflexivity. Qed.

Example webhook_no_number :
  @chargily_webhook cpython d_2024_06_01 (Some payload_paid_no_number) db_example
  = (Ok ("missing user_id", 400), db_example).
Proof. reflexivity. Qed.

Example webhook_nested :
  fst (@chargily_webhook cpython d_2024_06_01 (Some payload_nested_paid_42) db_example)
  = Ok ("ok", 200).
Proof. reflexivity. Qed.

(** Paying on 2024-06-01 with a period running to 2024-06-10 appends
    2024-06-11 .. 2024-07-10; paying again on 2024-08-01, after that period
    lapsed, appends 2024-08-01 .. 2024-08-30. *)
Example webhook_worked_example :
  let db1 := snd (@chargily_webhook cpython d_2024_06_01 (Some payload_paid_42)
                    db_example) in
  let db2 := snd (@chargily_webhook cpython d_2024_08_01 (Some payload_paid_42)
                    db1) in
  map (fun r => (subscriptions.user_id r, subscriptions.status r,
                 Calendar.isoformat (p_start r), Calendar.isoformat (p_end r),
                 subscriptions.cancel_at_period_end r))
      (subscriptions_tbl db2)
  = [(42, "active", "2024-05-12", "2024-06-10", 0);
     (42, "active", "2024-06-11", "2024-07-10", 0);
     (42, "active", "2024-08-01", "2024-08-30", 0)].
Proof. vm_compute. reflexivity. Qed.

(* ------------------------------------------------------------------ *)
(** ** Further properties of the billing core                          *)
(* ------------------------------------------------------------------ *)

Section BillingFacts.

Context {L : PyLib}.

Lemma latest_by_end_map (f : subscriptions.row -> subscriptions.row) rows :
  (forall r, p_end (f r) = p_end r) ->
  latest_by_end (map f rows) = option_map f (latest_by_end rows).
Proof.
  intros Hf. induction rows as [|r rest IH]; simpl; [reflexivity|].
  rewrite IH. destruct (latest_by_end rest) as [m|]; simpl; [|reflexivity].
  rewrite !Hf. destruct (p_end m <=? p_end r); reflexivity.
Qed.

Lemma filter_map_same {A : Type} (p : A -> bool) (f : A -> A) (l : list A) :
  (forall a, p (f a) = p a) ->
  filter p (map f l) = map f (filter p l).
Proof.
  intros H. induction l as [|a l IH]; simpl; [reflexivity|].
  rewrite H. destruct (p a); simpl; now rewrite IH.
Qed.

Lemma same_period_active uid r r' :
  same_period r r' -> is_active_of uid r' = is_active_of uid r.
Proof.
  intros (_ & Hu & Hs & _). unfold is_active_of. now rewrite Hu, Hs.
Qed.

Lemma paid_through_map uid us us' rows (f : subscriptions.row -> subscriptions.row) :
  (forall r, same_period r (f r)) ->
  paid_through uid (mkdb us (map f rows)) = paid_through uid (mkdb us' rows).
Proof.
  intros Hf. unfold paid_through. simpl.
  rewrite filter_map_same by (intros r; apply same_period_active, Hf).
  rewrite latest_by_end_map by (intros r; apply Hf).
  destruct (latest_by_end _) as [m|]; simpl; [|reflexivity].
  f_equal. apply Hf.
Qed.

Lemma new_period_start_paid_through today uid db :
  new_period_start today uid db =
  match paid_through uid db with
  | Some e => if today <=? e then add_days e 1 else today
  | None => today
  end.
Proof.
  unfold new_period_start, paid_through.
  destruct (latest_by_end _); reflexivity.
Qed.

Lemma next_id_map (f : subscriptions.row -> subscriptions.row) rows :
  (forall r, subscriptions.id (f r) = subscriptions.id r) ->
  next_id (map f rows) = next_id rows.
Proof.
  intros Hf. unfold next_id. f_equal.
  induction rows as [|r rest IH]; simpl; [reflexivity|]. now rewrite Hf, IH.
Qed.

Lemma new_period_map today uid us us' rows
    (f : subscriptions.row -> subscriptions.row) :
  (forall r, same_period r (f r)) ->
  new_period today uid (mkdb us (map f rows)) = new_period today uid (mkdb us' rows).
Proof.
  intros Hf. unfold new_period.
  rewrite !new_period_start_paid_through.
  rewrite (paid_through_map uid us us' rows f Hf). simpl.
  rewrite next_id_map by (intros r; apply Hf). reflexivity.
Qed.

Lemma paid_through_after_payment today uid db :
  paid_through uid (fst (create_subscription_month today uid db))
  = Some (add_days (new_period_start today uid db) 29).
Proof.
  pose proof (new_period_latest today uid db) as Hl.
  unfold paid_through.
  destruct (latest_by_end _) as [m|] eqn:E.
  - apply latest_by_end_latest_active in E.
    simpl. f_equal. apply (latest_active_end _ _ _ _ E Hl).
  - exfalso. eapply latest_by_end_none_active; [exact E|apply Hl].
Qed.

Lemma paid_up_paid_through t uid db :
  paid_up t uid db <-> exists e, paid_through uid db = Some e /\ t <= e.
Proof.
  unfold paid_through. split.
  - intros (r & Hr & Hle).
    destruct (latest_by_end _) as [m|] eqn:E.
    + apply latest_by_end_latest_active in E. destruct E as [_ Hmax].
      exists (p_end m). split; [reflexivity|]. specialize (Hmax r Hr). lia.
    + exfalso. eapply latest_by_end_none_active; eauto.
  - intros (e & He & Hle).
    destruct (latest_by_end _) as [m|] eqn:E; [|discriminate].
    apply latest_by_end_latest_active in E. destruct E as [Hm _].
    simpl in He. inversion He; subst e. exists m. auto.
Qed.

Lemma new_period_start_ge today uid db : today <= new_period_start today uid db.
Proof.
  rewrite new_period_start_paid_through.
  destruct (paid_through uid db) as [e|]; [|lia].
  destruct (today <=? e) eqn:C; [|lia].
  apply Z.leb_le in C. unfold add_days. lia.
Qed.

End BillingFacts.


(** X2.  After [create_subscription_month] the user is paid up on a day
    exactly when that day is no later than the returned period end, and
    that end is at least 29 days after today; a user of the store then
    passes the guard on every such day. *)
Theorem payment_paid_through {L : PyLib} (today t : date) (n : Z) (db : database) :
  (paid_up t n (fst (create_subscription_month today n db)) <->
   t <= snd (create_subscription_month today n db))
  /\ today + 29 <= snd (create_subscription_month today n db)
  /\ (t <= snd (create_subscription_month today n db) ->
      forall u, select_user db (Some n) = Some u ->
        subscription_required t (Some n) (fst (create_subscription_month today n db))
        = CallView).
Proof.
  assert (Hiff : paid_up t n (fst (create_subscription_month today n db)) <->
                 t <= snd (create_subscription_month today n db)).
  { rewrite paid_up_paid_through, paid_through_after_payment.
    change (snd (create_subscription_month today n db))
      with (add_days (new_period_start today n db) (BILLING_DAYS - 1)).
    unfold add_days, BILLING_DAYS. split.
    - intros (e & He & Hle). inversion He; subst. lia.
    - intros H. eexists. split; [reflexivity|]. lia. }
  split; [exact Hiff|]. split.
  - change (snd (create_subscription_month today n db))
      with (add_days (new_period_start today n db) (BILLING_DAYS - 1)).
    pose proof (new_period_start_ge today n db).
    unfold add_days, BILLING_DAYS. lia.
  - intros Hle u Hu. apply subscription_required_spec.
    exists u. split; [exact Hu|]. right.
    pose proof (select_user_some _ _ _ Hu) as [Hid _].
    assert (Hid' : n = users.id u) by congruence.
    rewrite <- Hid'. apply Hiff. exact Hle.
Qed.

Section WebhookFacts.

Context {L : PyLib}.

(** Appending rows and rewriting flags keeps everyone who was paid up paid
    up. *)
Lemma paid_up_kept today uid us rows more
    (f : subscriptions.row -> subscriptions.row) :
  (forall r, same_period r (f r)) ->
  paid_up today uid (mkdb us rows) ->
  paid_up today uid (mkdb us (map f rows ++ more)).
Proof.
  intros Hf (r & (Hin & Hu & Hs) & Hle). exists (f r).
  destruct (Hf r) as (_ & Hu' & Hs' & _ & He'). simpl in Hin.
  unfold active_period. simpl. rewrite Hu', Hs', He'.
  repeat split; auto. apply in_or_app. left. now apply in_map.
Qed.

Lemma subscription_required_kept today sid us rows more
    (f : subscriptions.row -> subscriptions.row) :
  (forall r, same_period r (f r)) ->
  subscription_required today sid (mkdb us rows) = CallView ->
  subscription_required today sid (mkdb us (map f rows ++ more)) = CallView.
Proof.
  intros Hf H. apply subscription_required_spec in H.
  destruct H as (u & Hu & H). apply subscription_required_spec.
  exists u. split; [exact Hu|].
  destruct H as [H|H]; [left; exact H|right].
  now apply paid_up_kept.
Qed.

Lemma uncancel_row_same n r : same_period r (uncancel_row n r).
Proof. apply (uncancel_row_uncancelled n r). Qed.

Lemma cancel_row_same n r : same_period r (cancel_row n r).
Proof. apply (cancel_row_cancelled n r). Qed.

End WebhookFacts.

(** X3.  No delivery to the webhook takes access away: whoever passes the
    guard on some day before the call, whatever the body, passes it on that
    day after the call. *)
Theorem chargily_webhook_keeps_access {L : PyLib} (today t : date)
    (body : request_body) (sid : option Z) (db : database) :
  subscription_required t sid db = CallView ->
  subscription_required t sid (snd (chargily_webhook today body db)) = CallView.
Proof.
  intros H. pose proof (chargily_webhook_outcome today body db) as Ho.
  inversion Ho as [E|E|E|n E]; simpl; try exact H.
  destruct db as [us rows]. simpl.
  apply subscription_required_kept; [apply uncancel_row_same|exact H].
Qed.

Lemma chargily_webhook_keeps_access_witness :
  @subscription_required cpython d_2024_06_01 (Some 42) db_example = CallView
  /\ @subscription_required cpython d_2024_06_01 (Some 42)
       (snd (@chargily_webhook cpython d_2024_08_01 (Some payload_paid_42)
               db_example))
     = CallView.
Proof.
  split; [reflexivity|].
  apply (@chargily_webhook_keeps_access cpython d_2024_08_01 d_2024_06_01
           (Some payload_paid_42) (Some 42) db_example).
  reflexivity.
Defined.


(** X5.  The [data] object is read only when the top-level [entity] is
    missing or false: a payment announced under [data] is credited as one
    announced at the top level is, and with a true top-level [entity] a
    [data] field changes nothing. *)
Theorem chargily_webhook_data_fallback {L : PyLib} (today : date)
    (kv dkv md : list (string * json)) (s : string) (n : Z) (d : json)
    (db : database) :
  (truthy (dict_get kv "entity") = false ->
   dict_get kv "data" = JDict dkv ->
   dict_get dkv "entity" = JStr "checkout" ->
   dict_get dkv "status" = JStr s ->
   In s ["paid"; "succeeded"; "success"] ->
   dict_get dkv "metadata" = JDict md ->
   py_int (dict_get md "user_id") = Ok n ->
   chargily_webhook today (Some (JDict kv)) db =
   chargily_webhook today (Some (JDict dkv)) db)
  /\ (truthy (dict_get kv "entity") = true ->
      chargily_webhook today (Some (JDict (("data", d) :: kv))) db =
      chargily_webhook today (Some (JDict kv)) db).
Proof.
  split.
  - intros Hte Hd He Hs Hin Hm Hn.
    rewrite (webhook_nested_paid today kv dkv md s n db Hte Hd He Hs Hin Hm Hn).
    rewrite (webhook_paid_store today dkv s md n db He Hs Hin Hm Hn).
    reflexivity.
  - intros Ht.
    rewrite (chargily_webhook_top_level today kv _ db eq_refl Ht).
    rewrite (chargily_webhook_top_level today (("data", d) :: kv)
               (dict_get kv "entity") db eq_refl Ht).
    reflexivity.
Qed.

Section PaymentFacts.

Context {L : PyLib}.

Lemma paid_through_update_uncancel uid db n :
  paid_through uid (update_uncancel db n) = paid_through uid db.
Proof.
  destruct db as [us rows]. unfold update_uncancel. simpl.
  apply paid_through_map. apply uncancel_row_same.
Qed.

Lemma uncancel_cancel_row n r :
  uncancel_row n (cancel_row n r) = uncancel_row n r.
Proof.
  unfold cancel_row.
  destruct (is_active_of n r && (subscriptions.cancel_at_period_end r =? 0)) eqn:E;
    [|reflexivity].
  apply andb_true_iff in E. destruct E as [Ea _].
  unfold uncancel_row.
  replace (is_active_of n (set_cancel 1 r)) with (is_active_of n r) by reflexivity.
  rewrite Ea. reflexivity.
Qed.

(** The store after an accepted payment of [n]. *)
Lemma paid_store_paid_through today n db :
  paid_through n
    (mkdb (users_tbl db)
          (map (uncancel_row n) (subscriptions_tbl db) ++ [new_period today n db]))
  = Some (add_days (new_period_start today n db) 29).
Proof.
  rewrite <- paid_store_eq, paid_through_update_uncancel.
  apply paid_through_after_payment.
Qed.

End PaymentFacts.



(** X7.  Cancelling before a payment leaves no trace: an accepted payment of
    [n] made after [n] cancelled yields the very store that the payment
    yields without the cancellation. *)
Theorem cancel_then_payment {L : PyLib} (today today' : date)
    (kv md : list (string * json)) (s : string) (n : Z) (db : database) :
  dict_get kv "entity" = JStr "checkout" ->
  dict_get kv "status" = JStr s ->
  In s ["paid"; "succeeded"; "success"] ->
  dict_get kv "metadata" = JDict md ->
  py_int (dict_get md "user_id") = Ok n ->
  chargily_webhook today (Some (JDict kv))
    (snd (subscribe today' (Some "cancel") n db))
  = chargily_webhook today (Some (JDict kv)) db.
Proof.
  intros He Hs Hin Hm Hn.
  rewrite subscribe_cancel_eq. cbn [snd].
  rewrite !(webhook_paid_store today kv s md n _ He Hs Hin Hm Hn).
  destruct db as [us rows]. unfold update_cancel. cbn [users_tbl subscriptions_tbl].
  rewrite map_map.
  rewrite (map_ext _ _ (uncancel_cancel_row n)).
  rewrite (new_period_map today n us us rows (cancel_row n) (cancel_row_same n)).
  reflexivity.
Qed.

Lemma cancel_then_payment_witness :
  @py_int cpython (dict_get [("user_id", JStr "42")] "user_id") = Ok 42
  /\ @chargily_webhook cpython d_2024_06_10 (Some payload_paid_42)
       (snd (@subscribe cpython d_2024_06_01 (Some "cancel") 42 db_example))
     = @chargily_webhook cpython d_2024_06_10 (Some payload_paid_42) db_example.
Proof.
  split; [reflexivity|].
  apply (@cancel_then_payment cpython d_2024_06_10 d_2024_06_01
           [("entity", JStr "checkout"); ("status", JStr "paid");
            ("metadata", JDict [("user_id", JStr "42")])]
           [("user_id", JStr "42")] "paid" 42 db_example
           eq_refl eq_refl (or_introl eq_refl) eq_refl eq_refl).
Defined.

(** X8.  The trial runs from its activation through the seventh day after
    it: once a user without a trial activates it on [today], and the text
    that [isoformat] writes for the end day reads back as that day,
    [has_trial_access] holds on a day exactly when that day is no later
    than [today + 7], and the guard lets the user through on those days. *)
Theorem trial_window {L : PyLib} (today t : date) (uid : Z) (db : database)
    (u : users.row) :
  select_user db (Some uid) = Some u ->
  users.trial_started_at u = None ->
  isoformat (add_days today 7) <> "" ->
  datetime_fromisoformat (isoformat (add_days today 7)) = Some (add_days today 7) ->
  let db' := snd (subscribe today (Some "start_trial") uid db) in
  (has_trial_access t (select_user db' (Some uid)) = true <-> t <= today + 7)
  /\ (t <= today + 7 -> subscription_required t (Some uid) db' = CallView).
Proof.
  intros Hu Hnull Hne Hparse db'.
  assert (Edb : db' = update_trial db (isoformat today)
                        (isoformat (add_days today TRIAL_DAYS)) uid).
  { unfold db'. rewrite (subscribe_trial_fresh today uid db u Hu); [reflexivity|].
    now rewrite Hnull. }
  destruct (update_trial_selected db (isoformat today)
              (isoformat (add_days today TRIAL_DAYS)) uid u Hu) as (u' & Hsel & Hw).
  rewrite <- Edb in Hsel.
  destruct Hw as (_ & _ & _ & _ & _ & _ & Hends).
  assert (Hiff : has_trial_access t (Some u') = true <-> t <= today + 7).
  { rewrite has_trial_access_spec. unfold trial_open. rewrite Hends. split.
    - intros (te & ends & Hte & _ & Hp & Hle). inversion Hte; subst te.
      change TRIAL_DAYS with 7 in Hp. rewrite Hparse in Hp.
      inversion Hp; subst ends. unfold add_days in Hle. exact Hle.
    - intros Hle. exists (isoformat (add_days today 7)), (add_days today 7).
      repeat split; auto. }
  rewrite Hsel. split; [exact Hiff|].
  intros Hle. apply subscription_required_spec.
  exists u'. split; [exact Hsel|]. left.
  apply has_trial_access_spec. now apply Hiff.
Qed.

Lemma trial_window_witness :
  select_user db_example (Some 42) = Some user42
  /\ @datetime_fromisoformat cpython (@isoformat cpython (add_days d_2024_06_01 7))
     = Some (add_days d_2024_06_01 7)
  /\ @subscription_required cpython (d_2024_06_01 + 7) (Some 42)
       (snd (@subscribe cpython d_2024_06_01 (Some "start_trial") 42 db_example))
     = CallView.
Proof.
  split; [reflexivity|]. split; [reflexivity|].
  apply (proj2 (@trial_window cpython d_2024_06_01 (d_2024_06_01 + 7) 42
                  db_example user42 eq_refl eq_refl
                  ltac:(vm_compute; discriminate) eq_refl)).
  apply Z.le_refl.
Defined.

(** X9.  The pricing page and the other handlers agree: its [on_trial] and
    [sub] are set exactly when the guard lets the user through today; its
    [trial_used] tells whether an attempt to start the trial will be
    refused or will set the trial; and it raises exactly when the session's
    user is gone from the store, as that attempt does. *)
Theorem pricing_agrees {L : PyLib} (today : date) (price uid : Z) (db : database) :
  match pricing today price uid db with
  | Ok p =>
      monthly_price p = price
      /\ ((on_trial p || fetched (sub p) = true) <->
          subscription_required today (Some uid) db = CallView)
      /\ (trial_used p = true ->
          subscribe today (Some "start_trial") uid db
          = (Ok (mkredirect (MSG_TRIAL_USED, "error") "account"), db))
      /\ (trial_used p = false ->
          subscribe today (Some "start_trial") uid db
          = (Ok (mkredirect
                   (MSG_TRIAL_STARTED (isoformat (add_days today 7)), "ok")
                   "account"),
             update_trial db (isoformat today) (isoformat (add_days today 7)) uid))
  | Raise e =>
      e = TypeError
      /\ select_user db (Some uid) = None
      /\ subscribe today (Some "start_trial") uid db = (Raise TypeError, db)
  end.
Proof.
  unfold pricing.
  destruct (select_user db (Some uid)) as [u|] eqn:Hu.
  - cbn [monthly_price on_trial sub trial_used].
    pose proof (select_user_some _ _ _ Hu) as [Hid _].
    assert (Hid' : uid = users.id u) by congruence.
    split; [reflexivity|]. split; [|split].
    + unfold subscription_required. rewrite Hu. rewrite <- Hid'.
      destruct (has_trial_access today (Some u)
                || fetched (active_subscription_for today uid db));
        split; congruence.
    + intros Ht. now apply (subscribe_trial_used today uid db u Hu).
    + intros Ht. now apply (subscribe_trial_fresh today uid db u Hu).
  - split; [reflexivity|]. split; [reflexivity|].
    unfold subscribe. rewrite Hu. reflexivity.
Qed.


(** X11.  The checkout names its user: the request of [pay_start] carries
    the [metadata] built for the logged-in user, and an event with entity
    "checkout", an accepted success status and that [metadata] credits
    exactly that user. *)
Theorem checkout_metadata_credits_user {L : PyLib} (today : date)
    (price uid : Z) (success_url s : string) (db : database) :
  In s ["paid"; "succeeded"; "success"] ->
  get (checkout_payload price success_url uid) "metadata"
    = Ok (checkout_metadata uid)
  /\ chargily_webhook today
       (Some (JDict [("entity", JStr "checkout"); ("status", JStr s);
                     ("metadata", checkout_metadata uid)]))
       db
     = (Ok ("ok", 200),
        mkdb (users_tbl db)
             (map (uncancel_row uid) (subscriptions_tbl db)
              ++ [new_period today uid db])).
Proof.
  intros Hin. split; [reflexivity|].
  apply (webhook_paid_store today _ s
           [("user_id", JInt uid); ("plan", JStr "monthly")] uid db);
    try reflexivity.
  exact Hin.
Qed.

Lemma checkout_metadata_credits_user_witness :
  In "paid" ["paid"; "succeeded"; "success"]
  /\ @chargily_webhook cpython d_2024_06_01
       (Some (JDict [("entity", JStr "checkout"); ("status", JStr "paid");
                     ("metadata", checkout_metadata 42)]))
       db_example
     = (Ok ("ok", 200),
        mkdb (users_tbl db_example)
             (map (uncancel_row 42) (subscriptions_tbl db_example)
              ++ [new_period d_2024_06_01 42 db_example])).
Proof.
  split; [left; reflexivity|].
  apply (proj2 (@checkout_metadata_credits_user cpython d_2024_06_01 1000 42
                  "http://localhost:5000/account" "paid" db_example
                  (or_introl eq_refl))).
Defined.

(* ------------------------------------------------------------------ *)
(** ** Accounts                                                        *)
(* ------------------------------------------------------------------ *)

Section AccountFacts.

Context {T : PyText}.

Lemma has_email_spec e u : has_email e u = true <-> users.email u = Some e.
Proof.
  unfold has_email. destruct (users.email u) as [e'|].
  - rewrite String.eqb_eq. split; [now intros ->|]. intros H. now inversion H.
  - split; discriminate.
Qed.

Lemma find_app_none {A : Type} (p : A -> bool) (l l' : list A) :
  find p l = None -> find p (l ++ l') = find p l'.
Proof.
  induction l as [|a l IH]; simpl; [reflexivity|].
  destruct (p a); [discriminate|exact IH].
Qed.

Lemma find_weaken {A : Type} (p q : A -> bool) (l : list A) :
  find p l = None -> find (fun a => p a && q a) l = None.
Proof.
  induction l as [|a l IH]; simpl; [reflexivity|].
  destruct (p a); [discriminate|]. simpl. exact IH.
Qed.

Lemma select_user_by_email_app db e more :
  select_user_by_email db e = None ->
  select_user_by_email (mkdb (users_tbl db ++ more) (subscriptions_tbl db)) e
  = find (has_email e) more.
Proof. unfold select_user_by_email. simpl. apply find_app_none. Qed.

Lemma registered_has_email f db : has_email (form_email f) (registered f db) = true.
Proof. apply has_email_spec. reflexivity. Qed.

(** What [register] does on a form that passes its checks. *)
Lemma register_success f db sess :
  form_email f <> "" ->
  form_get_default f "password" "" <> "" ->
  select_user_by_email db (form_email f) = None ->
  register "POST" f db sess =
  Done (Goto "pricing" [(MSG_REGISTERED, "ok")],
        mkdb (users_tbl db ++ [registered f db]) (subscriptions_tbl db),
        session_of (registered f db)).
Proof.
  intros He Hp Hnone. unfold register.
  change ("POST" =? "POST")%string with true. cbv iota.
  apply String.eqb_neq in He. apply String.eqb_neq in Hp.
  cbv zeta. rewrite He, Hp. cbn [orb]. rewrite Hnone.
  unfold insert_user. change (negb (("teacher" =? "admin")%string
                                    || ("teacher" =? "teacher")%string)) with false.
  cbv iota. rewrite Hnone.
  fold (registered f db).
  rewrite (select_user_by_email_app db (form_email f) [registered f db] Hnone).
  cbn [find]. rewrite registered_has_email. reflexivity.
Qed.

Lemma register_cases (method : string) (f : form) (db : database)
    (sess : session_state) :
  (exists flashes,
     register method f db sess = Done (Render "register/index.html" flashes, db, sess)
     /\ (method <> "POST" \/ form_email f = ""
         \/ form_get_default f "password" "" = ""
         \/ select_user_by_email db (form_email f) <> None))
  \/ (register method f db sess =
      Done (Goto "pricing" [(MSG_REGISTERED, "ok")],
            mkdb (users_tbl db ++ [registered f db]) (subscriptions_tbl db),
            session_of (registered f db))
      /\ method = "POST" /\ form_email f <> ""
      /\ form_get_default f "password" "" <> ""
      /\ select_user_by_email db (form_email f) = None).
Proof.
  destruct (method =? "POST")%string eqn:Em.
  - apply String.eqb_eq in Em. subst method.
    destruct (form_email f =? "")%string eqn:He.
    + left. eexists. split.
      * unfold register. change ("POST" =? "POST")%string with true.
        cbv iota zeta. rewrite He. reflexivity.
      * apply String.eqb_eq in He. auto.
    + destruct (form_get_default f "password" "" =? "")%string eqn:Hp.
      * left. eexists. split.
        -- unfold register. change ("POST" =? "POST")%string with true.
           cbv iota zeta. rewrite He, Hp. reflexivity.
        -- apply String.eqb_eq in Hp. auto.
      * destruct (select_user_by_email db (form_email f)) as [u|] eqn:Hs.
        -- left. eexists. split.
           ++ unfold register. change ("POST" =? "POST")%string with true.
              cbv iota zeta. rewrite He, Hp. cbn [orb]. rewrite Hs. reflexivity.
           ++ right. right. right. discriminate.
        -- right. apply String.eqb_neq in He. apply String.eqb_neq in Hp.
           split; [now apply register_success|auto].
  - left. exists []. split.
    + unfold register. rewrite Em. reflexivity.
    + left. now apply String.eqb_neq.
Qed.

End AccountFacts.

(** X12.  [register] never fails, and it either renders its form again with
    the store and the session as they were, or, exactly when the request is
    a POST with an email and a password that are not empty and an email no
    user has, appends one user (the normalised email, the digest of the
    password, role teacher, no trial), leaves every other row alone, logs
    that user in and redirects to the pricing page. *)
Theorem register_outcomes {T : PyText} (method : string) (f : form)
    (db : database) (sess : session_state) :
  (exists flashes,
     register method f db sess = Done (Render "register/index.html" flashes, db, sess)
     /\ (method <> "POST" \/ form_email f = ""
         \/ form_get_default f "password" "" = ""
         \/ select_user_by_email db (form_email f) <> None))
  \/ (register method f db sess =
      Done (Goto "pricing" [(MSG_REGISTERED, "ok")],
            mkdb (users_tbl db ++ [registered f db]) (subscriptions_tbl db),
            session_of (registered f db))
      /\ method = "POST" /\ form_email f <> ""
      /\ form_get_default f "password" "" <> ""
      /\ select_user_by_email db (form_email f) = None).
Proof. apply register_cases. Qed.

Section LoginFacts.

Context {T : PyText}.

Lemma emails_app db more :
  emails (mkdb (users_tbl db ++ more) (subscriptions_tbl db))
  = emails db ++ emails (mkdb more []).
Proof. unfold emails. simpl. apply flat_map_app. Qed.

Lemma select_user_by_email_none db e :
  select_user_by_email db e = None <-> ~ In e (emails db).
Proof.
  unfold select_user_by_email, emails.
  induction (users_tbl db) as [|u us IH]; simpl.
  - split; [intros _ []|reflexivity].
  - unfold has_email at 1. destruct (users.email u) as [e'|]; simpl.
    + destruct (e' =? e)%string eqn:E.
      * apply String.eqb_eq in E. subst e'. split; [discriminate|].
        intros H. exfalso. apply H. left. reflexivity.
      * apply String.eqb_neq in E. rewrite IH. split.
        -- intros H [H'|H']; [congruence|contradiction].
        -- intros H H'. apply H. right. exact H'.
    + exact IH.
Qed.

Lemma register_keeps_unique method f db sess r db' sess' :
  emails_unique db ->
  register method f db sess = Done (r, db', sess') ->
  emails_unique db'.
Proof.
  intros Hu H.
  destruct (register_cases method f db sess) as [(fl & E & _)|(E & _ & _ & _ & Hn)];
    rewrite E in H; inversion H; subst; [exact Hu|].
  unfold emails_unique. rewrite emails_app.
  change (emails (mkdb [registered f db] [])) with [form_email f].
  apply NoDup_app; [exact Hu|repeat constructor; intros []|].
  intros e Hin [<-|[]]. apply select_user_by_email_none in Hn. contradiction.
Qed.

Lemma login_after_register f db sess0 :
  select_user_by_email db (form_email f) = None ->
  login "POST" f (mkdb (users_tbl db ++ [registered f db]) (subscriptions_tbl db))
        sess0
  = (Goto "dashboard" [], session_of (registered f db)).
Proof.
  intros Hn. unfold login. change ("POST" =? "POST")%string with true.
  cbv iota zeta. unfold select_user_by_login. cbn [users_tbl].
  rewrite find_app_none by (apply find_weaken; exact Hn).
  cbn [find]. rewrite registered_has_email.
  change (users.password_hash (registered f db))
    with (sha256_hexdigest (form_get_default f "password" "")).
  rewrite String.eqb_refl. reflexivity.
Qed.

Lemma select_user_by_login_some db e h u :
  select_user_by_login db e h = Some u ->
  In u (users_tbl db) /\ users.email u = Some e /\ users.password_hash u = h.
Proof.
  unfold select_user_by_login. intros H. apply find_some in H.
  destruct H as [Hin H]. apply andb_true_iff in H. destruct H as [He Hh].
  apply has_email_spec in He. apply String.eqb_eq in Hh. auto.
Qed.

Lemma select_user_by_login_none db e h :
  select_user_by_login db e h = None ->
  forall u, In u (users_tbl db) -> users.email u = Some e ->
            users.password_hash u <> h.
Proof.
  unfold select_user_by_login. intros H u Hin He Hh.
  pose proof (find_none _ _ H u Hin) as Hf. cbv beta in Hf.
  apply has_email_spec in He. rewrite He in Hf.
  apply String.eqb_eq in Hh. rewrite Hh in Hf. discriminate.
Qed.

End LoginFacts.

(** X13.  [register] keeps the emails of the users distinct: from a store in
    which no two users share an email it never leads to one in which two
    do. *)
Theorem register_keeps_emails_unique {T : PyText} (method : string) (f : form)
    (db db' : database) (sess sess' : session_state) (r : reply) :
  emails_unique db ->
  register method f db sess = Done (r, db', sess') ->
  emails_unique db'.
Proof. apply register_keeps_unique. Qed.

Lemma register_keeps_emails_unique_witness :
  emails_unique (billing site_example)
  /\ emails_unique
       (mkdb (users_tbl (billing site_example)
              ++ [@registered sha_text form_register_karim (billing site_example)])
             []).
Proof.
  assert (H : emails_unique (billing site_example)).
  { repeat constructor; simpl; intuition discriminate. }
  split; [exact H|].
  apply (@register_keeps_emails_unique sha_text "POST" form_register_karim
           (billing site_example) _ None
           (session_of (@registered sha_text form_register_karim
                          (billing site_example)))
           (Goto "pricing" [(MSG_REGISTERED, "ok")]) H).
  vm_compute. reflexivity.
Defined.

(** X14.  Registration and login fit together: after a registration that
    succeeded, a login with the same form fields succeeds from any session
    and logs in the very user that the registration created. *)
Theorem register_then_login {T : PyText} (f : form) (db db' : database)
    (sess sess' sess0 : session_state) (flashes : list (string * string)) :
  register "POST" f db sess = Done (Goto "pricing" flashes, db', sess') ->
  login "POST" f db' sess0 = (Goto "dashboard" [], sess').
Proof.
  intros H.
  destruct (register_cases "POST" f db sess) as [(fl & E & _)|(E & _ & _ & _ & Hn)];
    rewrite E in H; inversion H; subst.
  now apply login_after_register.
Qed.

Lemma register_then_login_witness :
  @login sha_text "POST" form_register_karim
    (mkdb (users_tbl (billing site_example)
           ++ [@registered sha_text form_register_karim (billing site_example)])
          [])
    None
  = (Goto "dashboard" [],
     session_of (@registered sha_text form_register_karim (billing site_example))).
Proof.
  apply (@register_then_login sha_text form_register_karim (billing site_example)
           _ None _ None [(MSG_REGISTERED, "ok")]).
  vm_compute. reflexivity.
Defined.

(** X15.  [login] lets in exactly the holders of a password: a POST is
    answered with the redirect to the dashboard exactly when some user has
    the normalised email of the form and the digest of its password, and the
    session is then that of such a user; otherwise the login page is
    rendered with the error message and the session is left as it was. *)
Theorem login_checks_password {T : PyText} (f : form) (db : database)
    (sess : session_state) :
  (fst (login "POST" f db sess) = Goto "dashboard" [] <->
   exists u, In u (users_tbl db)
             /\ users.email u = Some (form_email f)
             /\ users.password_hash u
                = sha256_hexdigest (form_get_default f "password" ""))
  /\ ((exists u, In u (users_tbl db)
                /\ users.email u = Some (form_email f)
                /\ users.password_hash u
                   = sha256_hexdigest (form_get_default f "password" "")
                /\ login "POST" f db sess = (Goto "dashboard" [], session_of u))
      \/ login "POST" f db sess
         = (Render "login/index.html" [(MSG_BAD_LOGIN, "error")], sess)).
Proof.
  unfold login. change ("POST" =? "POST")%string with true. cbv iota zeta.
  destruct (select_user_by_login db (form_email f)
              (sha256_hexdigest (form_get_default f "password" ""))) as [u|] eqn:E.
  - pose proof (select_user_by_login_some _ _ _ _ E) as (Hin & He & Hh).
    split.
    + split; [|reflexivity]. intros _. exists u. auto.
    + left. exists u. auto.
  - split.
    + split; [discriminate|]. intros (u & Hin & He & Hh).
      exfalso. exact (select_user_by_login_none _ _ _ E u Hin He Hh).
    + right. reflexivity.
Qed.

(* ------------------------------------------------------------------ *)
(** ** Settings                                                        *)
(* ------------------------------------------------------------------ *)

Section SettingsFacts.

Context {T : PyText}.

Lemma settings_change_password_eq f uid s :
  form_get f "form_name" = Some "change_password" ->
  settings "POST" f uid s =
  match select_user (billing s) (Some uid) with
  | Some u =>
      if (sha256_hexdigest (form_get_default f "old" "") =? users.password_hash u)%string
      then (Render "settings/index.html" [(MSG_PASSWORD_CHANGED, "ok")],
            mksite (update_password (billing s)
                      (sha256_hexdigest (form_get_default f "new" "")) uid)
                   (password_resets_tbl s) (subjects_tbl s))
      else (Render "settings/index.html" [(MSG_OLD_PASSWORD_WRONG, "error")], s)
  | None => (Render "settings/index.html" [(MSG_OLD_PASSWORD_WRONG, "error")], s)
  end.
Proof.
  intros Hf. unfold settings, settings_subject_add, settings_user_add,
    settings_change_password. rewrite Hf.
  change ("POST" =? "POST")%string with true.
  change ("change_password" =? "subject_add")%string with false.
  change ("change_password" =? "user_add")%string with false.
  change ("change_password" =? "change_password")%string with true.
  cbn [andb]. cbv iota.
  destruct (select_user (billing s) (Some uid)) as [u|]; [|reflexivity].
  destruct (sha256_hexdigest (form_get_default f "old" "") =? users.password_hash u)%string;
    reflexivity.
Qed.

Lemma settings_user_add_eq f uid s :
  form_get f "form_name" = Some "user_add" ->
  settings "POST" f uid s =
  if (form_email f =? "")%string || (form_get_default f "password" "" =? "")%string
  then (Render "settings/index.html" [(MSG_REGISTER_REQUIRED, "error")], s)
  else
    match insert_user (billing s)
            (let u := strip (form_get_default f "username" "") in
             if (u =? "")%string then None else Some u)
            (form_email f)
            (sha256_hexdigest (form_get_default f "password" ""))
            (form_get_default f "role" "teacher") with
    | Done db' =>
        (Render "settings/index.html" [(MSG_USER_ADDED, "ok")],
         mksite db' (password_resets_tbl s) (subjects_tbl s))
    | Failed _ => (Render "settings/index.html" [(MSG_EMAIL_USED, "error")], s)
    end.
Proof.
  intros Hf. unfold settings, settings_subject_add, settings_user_add,
    settings_change_password. rewrite Hf.
  change ("POST" =? "POST")%string with true.
  change ("user_add" =? "subject_add")%string with false.
  change ("user_add" =? "user_add")%string with true.
  change ("user_add" =? "change_password")%string with false.
  cbn [andb]. cbv iota zeta.
  destruct ((form_email f =? "")%string
            || (form_get_default f "password" "" =? "")%string); [reflexivity|].
  destruct (insert_user _ _ _ _ _); reflexivity.
Qed.

Lemma emails_update_password db h uid :
  emails (update_password db h uid) = emails db.
Proof.
  unfold emails, update_password. simpl.
  induction (users_tbl db) as [|u us IH]; simpl; [reflexivity|].
  rewrite IH. f_equal. unfold set_password.
  destruct (users.id u =? uid); reflexivity.
Qed.

Lemma insert_user_done db username e h role db' :
  insert_user db username e h role = Done db' ->
  (role = "admin" \/ role = "teacher")
  /\ select_user_by_email db e = None
  /\ db' = mkdb (users_tbl db ++
                 [users.mk (next_rowid users.id (users_tbl db)) username (Some e)
                           h role None None])
                (subscriptions_tbl db).
Proof.
  unfold insert_user.
  destruct ((role =? "admin")%string || (role =? "teacher")%string) eqn:Er;
    [|discriminate]. cbn [negb].
  destruct (select_user_by_email db e); [discriminate|].
  intros H. inversion H. split; [|auto].
  apply orb_true_iff in Er. destruct Er as [Er|Er]; apply String.eqb_eq in Er; auto.
Qed.

Lemma insert_user_keeps_unique db username e h role db' :
  emails_unique db -> insert_user db username e h role = Done db' ->
  emails_unique db'.
Proof.
  intros Hu H. apply insert_user_done in H. destruct H as (_ & Hn & ->).
  unfold emails_unique. rewrite emails_app. simpl.
  apply NoDup_app; [exact Hu|repeat constructor; intros []|].
  intros x Hin [<-|[]]. apply select_user_by_email_none in Hn. contradiction.
Qed.

Lemma settings_keeps_unique method f uid s :
  emails_unique (billing s) ->
  emails_unique (billing (snd (settings method f uid s))).
Proof.
  intros Hu. unfold settings.
  assert (H1 : emails_unique (billing (fst (settings_subject_add method f (s, []))))).
  { unfold settings_subject_add.
    destruct ((method =? "POST")%string && _); [|exact Hu].
    destruct (strip (form_get_default f "name" "") =? "")%string; [exact Hu|].
    destruct (insert_subject _ _); exact Hu. }
  destruct (settings_subject_add method f (s, [])) as [s1 fl1]. simpl in H1.
  assert (H2 : emails_unique (billing (fst (settings_user_add method f (s1, fl1))))).
  { unfold settings_user_add.
    destruct ((method =? "POST")%string && _); [|exact H1].
    cbv zeta.
    destruct ((form_email f =? "")%string || _); [exact H1|].
    destruct (insert_user _ _ _ _ _) as [db'|e] eqn:E; [|exact H1].
    simpl. eapply insert_user_keeps_unique; eauto. }
  destruct (settings_user_add method f (s1, fl1)) as [s2 fl2]. simpl in H2.
  unfold settings_change_password.
  destruct ((method =? "POST")%string && _); [|exact H2].
  destruct (select_user (billing s2) (Some uid)) as [u|]; [|exact H2].
  destruct (_ =? _)%string; [|exact H2].
  simpl. unfold emails_unique. rewrite emails_update_password. exact H2.
Qed.

Lemma find_exists {A : Type} (p : A -> bool) (l : list A) (a : A) :
  In a l -> p a = true -> exists b, find p l = Some b.
Proof.
  intros Hin Hp. destruct (find p l) as [b|] eqn:E; [eauto|].
  pose proof (find_none _ _ E a Hin). congruence.
Qed.

(** After the password of user [uid] is set to the digest of [p], a login
    with an email of that user and [p] goes through. *)
Lemma login_after_update_password db uid u e p fl sess :
  In u (users_tbl db) -> users.id u = uid -> users.email u = Some e ->
  form_email fl = e -> form_get_default fl "password" "" = p ->
  fst (login "POST" fl (update_password db (sha256_hexdigest p) uid) sess)
  = Goto "dashboard" [].
Proof.
  intros Hin Hid He Hfe Hfp. unfold login.
  change ("POST" =? "POST")%string with true. cbv iota zeta.
  rewrite Hfe, Hfp.
  destruct (find_exists
              (fun u => has_email e u
                        && (users.password_hash u =? sha256_hexdigest p)%string)
              (users_tbl (update_password db (sha256_hexdigest p) uid))
              (set_password (sha256_hexdigest p) uid u)) as [b Hb].
  - unfold update_password. simpl. now apply in_map.
  - unfold set_password. apply Z.eqb_eq in Hid. rewrite Hid. simpl.
    apply andb_true_iff. split; [now apply has_email_spec|apply String.eqb_refl].
  - unfold select_user_by_login. rewrite Hb. reflexivity.
Qed.

End SettingsFacts.

(** X16.  The settings page changes a password only against the old one:
    on the change-password form, either the logged-in user exists and the
    digest of [old] is the stored one, and then that user's password becomes
    the digest of [new] and nothing else in the store changes, or the store
    is left as it was and the wrong-password message is flashed. *)
Theorem settings_change_password_needs_old {T : PyText} (f : form) (uid : Z)
    (s : site) :
  form_get f "form_name" = Some "change_password" ->
  (exists u,
     select_user (billing s) (Some uid) = Some u
     /\ sha256_hexdigest (form_get_default f "old" "") = users.password_hash u
     /\ settings "POST" f uid s =
        (Render "settings/index.html" [(MSG_PASSWORD_CHANGED, "ok")],
         mksite (mkdb (map (set_password
                              (sha256_hexdigest (form_get_default f "new" "")) uid)
                           (users_tbl (billing s)))
                      (subscriptions_tbl (billing s)))
                (password_resets_tbl s) (subjects_tbl s)))
  \/ ((forall u, select_user (billing s) (Some uid) = Some u ->
                 sha256_hexdigest (form_get_default f "old" "")
                 <> users.password_hash u)
      /\ settings "POST" f uid s =
         (Render "settings/index.html" [(MSG_OLD_PASSWORD_WRONG, "error")], s)).
Proof.
  intros Hf. rewrite (settings_change_password_eq f uid s Hf).
  destruct (select_user (billing s) (Some uid)) as [u|].
  - destruct (sha256_hexdigest (form_get_default f "old" "")
              =? users.password_hash u)%string eqn:E.
    + left. exists u. apply String.eqb_eq in E. auto.
    + right. split; [|reflexivity]. intros u' Hu'. inversion Hu'; subst u'.
      now apply String.eqb_neq.
  - right. split; [|reflexivity]. intros u Hu. discriminate.
Qed.

Lemma settings_change_password_needs_old_witness :
  form_get form_change_password "form_name" = Some "change_password"
  /\ @settings sha_text "POST" form_change_password 2 site_example
     = (Render "settings/index.html" [(MSG_PASSWORD_CHANGED, "ok")],
        mksite (mkdb [admin_user;
                      users.mk 2 None (Some "amina@example.com")
                               (Sha256.hexdigest "n3w-pass") "teacher" None None]
                     [])
               [] []).
Proof.
  split; [reflexivity|].
  destruct (@settings_change_password_needs_old sha_text form_change_password 2
              site_example eq_refl) as [(u & _ & _ & H)|[_ H]].
  - rewrite H. vm_compute. reflexivity.
  - exfalso. revert H. vm_compute. discriminate.
Defined.

(** X17.  A password changed on the settings page is the one that logs in:
    after the change went through for a user with an email, a login with
    that email and the new password is answered with the redirect to the
    dashboard. *)
Theorem settings_change_password_then_login {T : PyText} (f fl : form) (uid : Z)
    (s : site) (u : users.row) (e : string) (sess : session_state) :
  form_get f "form_name" = Some "change_password" ->
  select_user (billing s) (Some uid) = Some u ->
  sha256_hexdigest (form_get_default f "old" "") = users.password_hash u ->
  users.email u = Some e ->
  form_email fl = e ->
  form_get_default fl "password" "" = form_get_default f "new" "" ->
  fst (login "POST" fl (billing (snd (settings "POST" f uid s))) sess)
  = Goto "dashboard" [].
Proof.
  intros Hf Hu Hold He Hfe Hfp.
  rewrite (settings_change_password_eq f uid s Hf), Hu.
  apply String.eqb_eq in Hold. rewrite Hold. cbn [snd billing].
  pose proof (select_user_some _ _ _ Hu) as [Hid Hin].
  apply (login_after_update_password (billing s) uid u e); auto.
  congruence.
Qed.

Lemma settings_change_password_then_login_witness :
  select_user (billing site_example) (Some 2) = Some teacher_user
  /\ fst (@login sha_text "POST" form_login_amina_new
            (billing (snd (@settings sha_text "POST" form_change_password 2
                             site_example)))
            None)
     = Goto "dashboard" [].
Proof.
  split; [reflexivity|].
  apply (@settings_change_password_then_login sha_text form_change_password
           form_login_amina_new 2 site_example teacher_user "amina@example.com"
           None eq_refl eq_refl);
    vm_compute; reflexivity.
Defined.

(** X18.  The settings page keeps the emails of the users distinct, whatever
    form is posted: from a store in which no two users share an email it
    never leads to one in which two do. *)
Theorem settings_keeps_emails_unique {T : PyText} (method : string) (f : form)
    (uid : Z) (s : site) :
  emails_unique (billing s) ->
  emails_unique (billing (snd (settings method f uid s))).
Proof. apply settings_keeps_unique. Qed.

Lemma settings_keeps_emails_unique_witness :
  emails_unique (billing site_example)
  /\ emails_unique
       (billing (snd (@settings sha_text "POST"
                        [("form_name", "user_add"); ("email", "Karim@example.com");
                         ("password", "pa55word"); ("role", "admin")]
                        2 site_example))).
Proof.
  assert (H : emails_unique (billing site_example)).
  { repeat constructor; simpl; intuition discriminate. }
  split; [exact H|].
  apply (@settings_keeps_emails_unique sha_text "POST" _ 2 site_example H).
Defined.

(** X19.  Any logged-in user can add a user of either role: on the add-user
    form with an email and a password that are not empty, the page appends
    the user with the role the form names when that role is admin or teacher
    and no user has the email, whoever is logged in; with a taken email or
    another role it flashes the email-in-use message and changes nothing. *)
Theorem settings_user_add_any_role {T : PyText} (f : form) (uid : Z) (s : site) :
  form_get f "form_name" = Some "user_add" ->
  form_email f <> "" ->
  form_get_default f "password" "" <> "" ->
  let role := form_get_default f "role" "teacher" in
  ((role = "admin" \/ role = "teacher")
   /\ select_user_by_email (billing s) (form_email f) = None
   /\ exists new,
        settings "POST" f uid s =
        (Render "settings/index.html" [(MSG_USER_ADDED, "ok")],
         mksite (mkdb (users_tbl (billing s) ++ [new])
                      (subscriptions_tbl (billing s)))
                (password_resets_tbl s) (subjects_tbl s))
        /\ users.role new = role
        /\ users.email new = Some (form_email f)
        /\ users.password_hash new
           = sha256_hexdigest (form_get_default f "password" ""))
  \/ ((~ (role = "admin" \/ role = "teacher")
       \/ select_user_by_email (billing s) (form_email f) <> None)
      /\ settings "POST" f uid s =
         (Render "settings/index.html" [(MSG_EMAIL_USED, "error")], s)).
Proof.
  intros Hf He Hp role.
  rewrite (settings_user_add_eq f uid s Hf).
  apply String.eqb_neq in He. apply String.eqb_neq in Hp. rewrite He, Hp.
  cbn [orb]. fold role.
  destruct (insert_user _ _ _ _ role) as [db'|e] eqn:E.
  - left. apply insert_user_done in E. destruct E as (Hr & Hn & ->).
    split; [exact Hr|]. split; [exact Hn|].
    eexists. split; [reflexivity|]. repeat split.
  - right. split; [|reflexivity]. unfold insert_user in E.
    destruct ((role =? "admin")%string || (role =? "teacher")%string) eqn:Er.
    + right. cbn [negb] in E.
      destruct (select_user_by_email (billing s) (form_email f)); [discriminate|].
      discriminate.
    + left. intros [H|H]; apply String.eqb_eq in H; rewrite H in Er;
        [discriminate|]. rewrite orb_true_r in Er. discriminate.
Qed.

Lemma settings_user_add_any_role_witness :
  form_get [("form_name", "user_add"); ("email", "Karim@example.com");
            ("password", "pa55word"); ("role", "admin")] "form_name"
    = Some "user_add"
  /\ map users.role
       (users_tbl (billing (snd (@settings sha_text "POST"
                    [("form_name", "user_add"); ("email", "Karim@example.com");
                     ("password", "pa55word"); ("role", "admin")]
                    2 site_example))))
     = ["admin"; "teacher"; "admin"].
Proof.
  split; [reflexivity|].
  destruct (@settings_user_add_any_role sha_text
              [("form_name", "user_add"); ("email", "Karim@example.com");
               ("password", "pa55word"); ("role", "admin")]
              2 site_example eq_refl
              ltac:(vm_compute; discriminate) ltac:(vm_compute; discriminate))
    as [(_ & _ & new & H & Hrole & _)|[_ H]]; rewrite H.
  - cbn [snd billing users_tbl]. rewrite map_app. cbn [map].
    rewrite Hrole. reflexivity.
  - exfalso. revert H. vm_compute. discriminate.
Defined.

(* ------------------------------------------------------------------ *)
(** ** Password reset                                                  *)
(* ------------------------------------------------------------------ *)

Section ResetFacts.

Context {T : PyText} {C : PyClock}.

Lemma insert_reset_fresh rows uid token exp :
  (forall r, In r rows -> password_resets.token r <> token) ->
  insert_reset rows uid token exp =
  Done (rows ++ [password_resets.mk (next_rowid password_resets.id rows)
                                    uid token exp 0]).
Proof.
  intros H. unfold insert_reset.
  destruct (existsb _ rows) eqn:E; [|reflexivity].
  apply existsb_exists in E. destruct E as (r & Hin & Hr).
  apply String.eqb_eq in Hr. exfalso. exact (H r Hin Hr).
Qed.

Lemma insert_reset_cases rows uid token exp :
  (insert_reset rows uid token exp = Failed IntegrityError
   /\ exists r, In r rows /\ password_resets.token r = token)
  \/ (insert_reset rows uid token exp =
      Done (rows ++ [password_resets.mk (next_rowid password_resets.id rows)
                                        uid token exp 0])
      /\ forall r, In r rows -> password_resets.token r <> token).
Proof.
  unfold insert_reset. destruct (existsb _ rows) eqn:E.
  - left. split; [reflexivity|]. apply existsb_exists in E.
    destruct E as (r & Hin & Hr). apply String.eqb_eq in Hr. eauto.
  - right. split; [reflexivity|]. intros r Hin Hr.
    pose proof (existsb_exists (fun r => (password_resets.token r =? token)%string)
                               rows) as [_ Hx].
    rewrite Hx in E; [discriminate|]. exists r. split; [exact Hin|].
    now apply String.eqb_eq.
Qed.

Lemma select_reset_fresh rows token row :
  (forall r, In r rows -> password_resets.token r <> token) ->
  password_resets.token row = token -> password_resets.used row = 0 ->
  select_reset (rows ++ [row]) token = Some row.
Proof.
  intros H Ht Hu. unfold select_reset. rewrite find_app_none.
  - simpl. rewrite Ht, Hu, String.eqb_refl. reflexivity.
  - destruct (find _ rows) as [r|] eqn:E; [|reflexivity].
    apply find_some in E. destruct E as [Hin Hr].
    apply andb_true_iff in Hr. destruct Hr as [Hr _].
    apply String.eqb_eq in Hr. exfalso. exact (H r Hin Hr).
Qed.

Lemma forgot_known f now tok url smtpc smtps s user :
  form_email f <> "" ->
  select_user_by_email (billing s) (form_email f) = Some user ->
  (forall r, In r (password_resets_tbl s) -> password_resets.token r <> tok) ->
  forgot "POST" f now tok url smtpc smtps s =
  Done (Goto "login"
             (if smtpc
              then if smtps then [(MSG_FORGOT_SENT, "ok")]
                   else [(MSG_MAIL_FAILED (url tok), "error")]
              else [(MSG_MAIL_DEV (url tok), "ok")]),
        mksite (billing s)
               (password_resets_tbl s ++
                [password_resets.mk
                   (next_rowid password_resets.id (password_resets_tbl s))
                   (users.id user) tok (datetime_isoformat (add_hours now 1)) 0])
               (subjects_tbl s)).
Proof.
  intros He Hu Hfresh. unfold forgot.
  change ("POST" =? "POST")%string with true. cbv iota zeta.
  apply String.eqb_neq in He. rewrite He, Hu.
  rewrite (insert_reset_fresh _ _ _ _ Hfresh).
  unfold send_reset_email. destruct smtpc, smtps; reflexivity.
Qed.

(** When [reset_password] goes through. *)
Lemma reset_password_done token f now s req e :
  select_reset (password_resets_tbl s) token = Some req ->
  datetime_parse (password_resets.expires_at req) = Some (Naive e) ->
  now <= e ->
  form_get_default f "new" "" <> "" ->
  form_get_default f "new" "" = form_get_default f "confirm" "" ->
  reset_password token "POST" f now s =
  Done (Goto "login" [(MSG_RESET_DONE, "ok")],
        mksite (update_password (billing s)
                  (sha256_hexdigest (form_get_default f "new" ""))
                  (password_resets.user_id req))
               (map (mark_used (password_resets.id req)) (password_resets_tbl s))
               (subjects_tbl s)).
Proof.
  intros Hs Hp Hle Hn Hc. unfold reset_password. rewrite Hs, Hp.
  apply Z.ltb_ge in Hle. rewrite Hle.
  change ("POST" =? "POST")%string with true. cbv iota zeta.
  rewrite <- Hc. apply String.eqb_neq in Hn. rewrite Hn, String.eqb_refl.
  reflexivity.
Qed.

Lemma reset_password_expired token method f now s req e :
  select_reset (password_resets_tbl s) token = Some req ->
  datetime_parse (password_resets.expires_at req) = Some (Naive e) ->
  e < now ->
  reset_password token method f now s =
  Done (Goto "forgot" [(MSG_RESET_EXPIRED, "error")], s).
Proof.
  intros Hs Hp Hlt. unfold reset_password. rewrite Hs, Hp.
  apply Z.ltb_lt in Hlt. rewrite Hlt. reflexivity.
Qed.

Lemma reset_password_unparsable token method f now s req :
  select_reset (password_resets_tbl s) token = Some req ->
  datetime_parse (password_resets.expires_at req) = None ->
  reset_password token method f now s =
  Done (Goto "forgot" [(MSG_RESET_EXPIRED, "error")], s).
Proof.
  intros Hs Hp. unfold reset_password. rewrite Hs, Hp.
  assert (H : (sub_seconds now 1 <? now) = true)
    by (apply Z.ltb_lt; unfold sub_seconds; lia).
  rewrite H. reflexivity.
Qed.

(** All the ways [reset_password] can end. *)
Lemma reset_password_cases token method f now s :
  (select_reset (password_resets_tbl s) token = None
   /\ reset_password token method f now s =
      Done (Goto "login" [(MSG_RESET_INVALID, "error")], s))
  \/ (exists req t,
        select_reset (password_resets_tbl s) token = Some req
        /\ datetime_parse (password_resets.expires_at req) = Some (Aware t)
        /\ reset_password token method f now s = Failed (Python TypeError))
  \/ (exists req,
        select_reset (password_resets_tbl s) token = Some req
        /\ (datetime_parse (password_resets.expires_at req) = None
            \/ exists e, datetime_parse (password_resets.expires_at req)
                         = Some (Naive e) /\ e < now)
        /\ reset_password token method f now s =
           Done (Goto "forgot" [(MSG_RESET_EXPIRED, "error")], s))
  \/ (exists req e fl,
        select_reset (password_resets_tbl s) token = Some req
        /\ datetime_parse (password_resets.expires_at req) = Some (Naive e)
        /\ now <= e
        /\ (method <> "POST" \/ form_get_default f "new" "" = ""
            \/ form_get_default f "new" "" <> form_get_default f "confirm" "")
        /\ reset_password token method f now s =
           Done (Render "reset/index.html" fl, s))
  \/ (exists req e,
        select_reset (password_resets_tbl s) token = Some req
        /\ datetime_parse (password_resets.expires_at req) = Some (Naive e)
        /\ now <= e
        /\ method = "POST"
        /\ form_get_default f "new" "" <> ""
        /\ form_get_default f "new" "" = form_get_default f "confirm" ""
        /\ reset_password token method f now s =
           Done (Goto "login" [(MSG_RESET_DONE, "ok")],
                 mksite (update_password (billing s)
                           (sha256_hexdigest (form_get_default f "new" ""))
                           (password_resets.user_id req))
                        (map (mark_used (password_resets.id req))
                             (password_resets_tbl s))
                        (subjects_tbl s))).
Proof.
  destruct (select_reset (password_resets_tbl s) token) as [req|] eqn:Hs.
  - right.
    destruct (datetime_parse (password_resets.expires_at req)) as [[e|t]|] eqn:Hp.
    + destruct (Z.lt_ge_cases e now) as [Hlt|Hge].
      * right. left. exists req. split; [reflexivity|]. split; [eauto|].
        eapply reset_password_expired; eauto.
      * right. right.
        destruct (method =? "POST")%string eqn:Em.
        -- apply String.eqb_eq in Em. subst method.
           destruct (form_get_default f "new" "" =? "")%string eqn:En.
           ++ left. exists req, e. eexists. repeat (split; [eauto|]).
              ** apply String.eqb_eq in En. auto.
              ** unfold reset_password. rewrite Hs, Hp.
                 apply Z.ltb_ge in Hge. rewrite Hge.
                 change ("POST" =? "POST")%string with true. cbv iota zeta.
                 rewrite En. reflexivity.
           ++ destruct (form_get_default f "new" ""
                        =? form_get_default f "confirm" "")%string eqn:Ec.
              ** right. exists req, e. apply String.eqb_eq in Ec.
                 apply String.eqb_neq in En. repeat (split; [eauto|]).
                 now apply reset_password_done with (e := e).
              ** left. exists req, e. eexists. repeat (split; [eauto|]).
                 --- apply String.eqb_neq in Ec. auto.
                 --- unfold reset_password. rewrite Hs, Hp.
                     apply Z.ltb_ge in Hge. rewrite Hge.
                     change ("POST" =? "POST")%string with true. cbv iota zeta.
                     rewrite En, Ec. reflexivity.
        -- left. exists req, e. eexists. repeat (split; [eauto|]).
           ++ left. now apply String.eqb_neq.
           ++ unfold reset_password. rewrite Hs, Hp.
              apply Z.ltb_ge in Hge. rewrite Hge, Em. reflexivity.
    + left. exists req, t. repeat (split; [eauto|]).
      unfold reset_password. rewrite Hs, Hp. reflexivity.
    + right. left. exists req. split; [reflexivity|]. split; [auto|].
      eapply reset_password_unparsable; eauto.
  - left. split; [reflexivity|]. unfold reset_password. rewrite Hs. reflexivity.
Qed.

End ResetFacts.

Section ResetUse.

Context {T : PyText} {C : PyClock}.

Lemma NoDup_map_in_eq {A B : Type} (g : A -> B) (l : list A) (a b : A) :
  NoDup (map g l) -> In a l -> In b l -> g a = g b -> a = b.
Proof.
  induction l as [|x l IH]; simpl; intros Hnd Ha Hb Hg; [contradiction|].
  inversion Hnd as [|? ? Hnot Hnd']; subst.
  destruct Ha as [->|Ha], Hb as [->|Hb]; auto.
  - exfalso. apply Hnot. rewrite Hg. now apply in_map.
  - exfalso. apply Hnot. rewrite <- Hg. now apply in_map.
Qed.

Lemma select_reset_some rows token req :
  select_reset rows token = Some req ->
  In req rows /\ password_resets.token req = token /\ password_resets.used req = 0.
Proof.
  unfold select_reset. intros H. apply find_some in H. destruct H as [Hin H].
  apply andb_true_iff in H. destruct H as [Ht Hu].
  apply String.eqb_eq in Ht. apply Z.eqb_eq in Hu. auto.
Qed.

(** Once the request found under a token is marked used, nothing is found
    under that token any more. *)
Lemma select_reset_after_use rows token req :
  tokens_unique rows ->
  select_reset rows token = Some req ->
  select_reset (map (mark_used (password_resets.id req)) rows) token = None.
Proof.
  intros Hu Hs. apply select_reset_some in Hs. destruct Hs as (Hin & Ht & _).
  destruct (select_reset (map _ rows) token) as [r'|] eqn:E; [|reflexivity].
  apply select_reset_some in E. destruct E as (Hin' & Ht' & Hu').
  apply in_map_iff in Hin'. destruct Hin' as (r & <- & Hr).
  assert (Htr : password_resets.token r = token).
  { revert Ht'. unfold mark_used.
    destruct (password_resets.id r =? password_resets.id req); auto. }
  assert (r = req) by (eapply NoDup_map_in_eq; eauto; congruence).
  subst r. revert Hu'. unfold mark_used. rewrite Z.eqb_refl. simpl. discriminate.
Qed.

End ResetUse.

(** X20.  [forgot] issues a token for a known email: on a POST whose
    normalised email belongs to a user, with a token no request holds yet,
    it appends one unused request for that user under that token, expiring
    one hour after now, leaves the rest of the store alone and redirects to
    the login page; the flashed message is the confirmation when the mail
    went out, and otherwise, with SMTP failing or not configured, it carries
    the reset link itself. *)
Theorem forgot_issues_token {T : PyText} {C : PyClock} (f : form) (now : datetime)
    (tok : string) (url : string -> string) (smtpc smtps : bool) (s : site)
    (user : users.row) :
  form_email f <> "" ->
  select_user_by_email (billing s) (form_email f) = Some user ->
  (forall r, In r (password_resets_tbl s) -> password_resets.token r <> tok) ->
  forgot "POST" f now tok url smtpc smtps s =
  Done (Goto "login"
             (if smtpc
              then if smtps then [(MSG_FORGOT_SENT, "ok")]
                   else [(MSG_MAIL_FAILED (url tok), "error")]
              else [(MSG_MAIL_DEV (url tok), "ok")]),
        mksite (billing s)
               (password_resets_tbl s ++
                [password_resets.mk
                   (next_rowid password_resets.id (password_resets_tbl s))
                   (users.id user) tok (datetime_isoformat (add_hours now 1)) 0])
               (subjects_tbl s)).
Proof. apply forgot_known. Qed.

Lemma forgot_issues_token_witness :
  @select_user_by_email (billing site_example) (@form_email sha_text form_forgot_amina)
    = Some teacher_user
  /\ @forgot sha_text wall_clock "POST" form_forgot_amina noon_2024_06_10 "tok-1"
       reset_url_example false false site_example
     = Done (Goto "login"
                  [(MSG_MAIL_DEV "http://localhost:5000/reset/tok-1", "ok")],
             mksite (billing site_example)
                    [password_resets.mk 1 2 "tok-1" "2024-06-10T13:00:00" 0] []).
Proof.
  split; [reflexivity|].
  rewrite (@forgot_issues_token sha_text wall_clock form_forgot_amina
             noon_2024_06_10 "tok-1" reset_url_example false false site_example
             teacher_user ltac:(vm_compute; discriminate) eq_refl
             ltac:(intros r [])).
  vm_compute. reflexivity.
Defined.

(** X21.  [forgot] never touches the users, the billing rows or the
    subjects, and adds no request unless the email is known: a call that
    returns leaves the requests as they were, or with one more unused
    request, of a user of the store, under the new token; a call that fails
    fails with [IntegrityError], on a token that a request already holds. *)
Theorem forgot_effects {T : PyText} {C : PyClock} (method : string) (f : form)
    (now : datetime) (tok : string) (url : string -> string)
    (smtpc smtps : bool) (s : site) :
  match forgot method f now tok url smtpc smtps s with
  | Done (r, s') =>
      billing s' = billing s
      /\ subjects_tbl s' = subjects_tbl s
      /\ (password_resets_tbl s' = password_resets_tbl s
          \/ exists row user,
               password_resets_tbl s' = password_resets_tbl s ++ [row]
               /\ In user (users_tbl (billing s))
               /\ users.email user = Some (form_email f)
               /\ password_resets.user_id row = users.id user
               /\ password_resets.token row = tok
               /\ password_resets.used row = 0
               /\ password_resets.expires_at row
                  = datetime_isoformat (add_hours now 1))
  | Failed e =>
      e = IntegrityError
      /\ exists r, In r (password_resets_tbl s) /\ password_resets.token r = tok
  end.
Proof.
  unfold forgot.
  destruct (method =? "POST")%string; [|auto].
  cbv zeta. destruct (form_email f =? "")%string; [auto|].
  destruct (select_user_by_email (billing s) (form_email f)) as [user|] eqn:Hu;
    [|auto].
  destruct (insert_reset_cases (password_resets_tbl s) (users.id user) tok
              (datetime_isoformat (add_hours now 1))) as [[E Hex]|[E Hfresh]];
    rewrite E.
  - split; [reflexivity|exact Hex].
  - destruct (send_reset_email smtpc smtps (form_email f) (url tok)) as [ok fl].
    cbn [billing subjects_tbl password_resets_tbl].
    split; [reflexivity|]. split; [reflexivity|]. right.
    unfold select_user_by_email in Hu. apply find_some in Hu.
    destruct Hu as [Hin He]. apply has_email_spec in He.
    eexists. exists user. split; [reflexivity|]. repeat split; auto.
Qed.

(** X22.  The ways [reset_password] can end: an unknown or used token gives
    the invalid-link redirect; an expiry with a UTC offset makes the
    comparison raise [TypeError]; an expiry that does not parse or lies in
    the past gives the expired redirect, on a POST too; a GET, an empty new
    password or a confirmation that differs renders the form; each of these
    leaves the store as it was.  Only a POST with a matching, non-empty new
    password under an unused, unexpired token sets the digest for the
    token's user and marks the request used. *)
Theorem reset_password_outcomes {T : PyText} {C : PyClock} (token method : string)
    (f : form) (now : datetime) (s : site) :
  (select_reset (password_resets_tbl s) token = None
   /\ reset_password token method f now s =
      Done (Goto "login" [(MSG_RESET_INVALID, "error")], s))
  \/ (exists req t,
        select_reset (password_resets_tbl s) token = Some req
        /\ datetime_parse (password_resets.expires_at req) = Some (Aware t)
        /\ reset_password token method f now s = Failed (Python TypeError))
  \/ (exists req,
        select_reset (password_resets_tbl s) token = Some req
        /\ (datetime_parse (password_resets.expires_at req) = None
            \/ exists e, datetime_parse (password_resets.expires_at req)
                         = Some (Naive e) /\ e < now)
        /\ reset_password token method f now s =
           Done (Goto "forgot" [(MSG_RESET_EXPIRED, "error")], s))
  \/ (exists req e fl,
        select_reset (password_resets_tbl s) token = Some req
        /\ datetime_parse (password_resets.expires_at req) = Some (Naive e)
        /\ now <= e
        /\ (method <> "POST" \/ form_get_default f "new" "" = ""
            \/ form_get_default f "new" "" <> form_get_default f "confirm" "")
        /\ reset_password token method f now s =
           Done (Render "reset/index.html" fl, s))
  \/ (exists req e,
        select_reset (password_resets_tbl s) token = Some req
        /\ datetime_parse (password_resets.expires_at req) = Some (Naive e)
        /\ now <= e
        /\ method = "POST"
        /\ form_get_default f "new" "" <> ""
        /\ form_get_default f "new" "" = form_get_default f "confirm" ""
        /\ reset_password token method f now s =
           Done (Goto "login" [(MSG_RESET_DONE, "ok")],
                 mksite (update_password (billing s)
                           (sha256_hexdigest (form_get_default f "new" ""))
                           (password_resets.user_id req))
                        (map (mark_used (password_resets.id req))
                             (password_resets_tbl s))
                        (subjects_tbl s))).
Proof. apply reset_password_cases. Qed.

(** X23.  A reset token works once: after a request under a token went
    through, in a table whose tokens were distinct, every later request
    under that token, by any method, with any form, at any time, is
    answered with the invalid-link redirect and changes nothing. *)
Theorem reset_password_single_use {T : PyText} {C : PyClock}
    (token method' : string) (f f' : form) (now now' : datetime) (s s' : site) :
  tokens_unique (password_resets_tbl s) ->
  reset_password token "POST" f now s =
  Done (Goto "login" [(MSG_RESET_DONE, "ok")], s') ->
  reset_password token method' f' now' s' =
  Done (Goto "login" [(MSG_RESET_INVALID, "error")], s').
Proof.
  intros Hu H.
  destruct (reset_password_cases token "POST" f now s)
    as [[_ E]|[(req & t & _ & _ & E)|[(req & _ & _ & E)
        |[(req & e & fl & _ & _ & _ & _ & E)|(req & e & Hs & _ & _ & _ & _ & _ & E)]]]];
    rewrite E in H; try discriminate.
  inversion H; subst s'. clear H.
  unfold reset_password. cbn [password_resets_tbl].
  rewrite (select_reset_after_use _ _ _ Hu Hs). reflexivity.
Qed.

Lemma reset_password_single_use_witness :
  tokens_unique [password_resets.mk 1 2 "tok-1" "2024-06-10T13:00:00" 0]
  /\ @reset_password sha_text wall_clock "tok-1" "POST" form_new_password
       (noon_2024_06_10 + 1)
       (mksite (mkdb [admin_user;
                      users.mk 2 None (Some "amina@example.com")
                               (Sha256.hexdigest "n3w-pass") "teacher" None None]
                     [])
               [password_resets.mk 1 2 "tok-1" "2024-06-10T13:00:00" 1] [])
     = Done (Goto "login" [(MSG_RESET_INVALID, "error")],
             mksite (mkdb [admin_user;
                           users.mk 2 None (Some "amina@example.com")
                                    (Sha256.hexdigest "n3w-pass") "teacher" None None]
                          [])
                    [password_resets.mk 1 2 "tok-1" "2024-06-10T13:00:00" 1] []).
Proof.
  assert (Hu : tokens_unique [password_resets.mk 1 2 "tok-1" "2024-06-10T13:00:00" 0]).
  { repeat constructor. intros []. }
  split; [exact Hu|].
  apply (@reset_password_single_use sha_text wall_clock "tok-1" "POST"
           form_new_password form_new_password noon_2024_06_10
           (noon_2024_06_10 + 1)
           (mksite (billing site_example)
                   [password_resets.mk 1 2 "tok-1" "2024-06-10T13:00:00" 0] [])
           _ Hu).
  vm_compute. reflexivity.
Defined.

(** X24.  A token is good for one hour: when [forgot] issues it at [now] for
    a known email, and the text written for [now] plus one hour reads back
    as that time, a POST with a matching new password under the token goes
    through at every time up to and including [now] plus one hour, setting
    the digest for the user of that email, and is answered with the expired
    redirect, the store unchanged, at every later time. *)
Theorem reset_token_window {T : PyText} {C : PyClock} (f f' : form)
    (now now' : datetime) (tok : string) (url : string -> string)
    (smtpc smtps : bool) (s : site) (user : users.row) :
  form_email f <> "" ->
  select_user_by_email (billing s) (form_email f) = Some user ->
  (forall r, In r (password_resets_tbl s) -> password_resets.token r <> tok) ->
  datetime_parse (datetime_isoformat (add_hours now 1))
    = Some (Naive (add_hours now 1)) ->
  form_get_default f' "new" "" <> "" ->
  form_get_default f' "new" "" = form_get_default f' "confirm" "" ->
  exists r s1,
    forgot "POST" f now tok url smtpc smtps s = Done (r, s1)
    /\ (now' <= now + 3600000000 ->
        exists s2,
          reset_password tok "POST" f' now' s1
            = Done (Goto "login" [(MSG_RESET_DONE, "ok")], s2)
          /\ users_tbl (billing s2)
             = map (set_password (sha256_hexdigest (form_get_default f' "new" ""))
                                 (users.id user))
                   (users_tbl (billing s)))
    /\ (now + 3600000000 < now' ->
        reset_password tok "POST" f' now' s1
          = Done (Goto "forgot" [(MSG_RESET_EXPIRED, "error")], s1)).
Proof.
  intros He Hu Hfresh Hrt Hn Hc.
  eexists. eexists. split; [apply (forgot_known f now tok url smtpc smtps s user);
                            assumption|].
  set (row := password_resets.mk
                (next_rowid password_resets.id (password_resets_tbl s))
                (users.id user) tok (datetime_isoformat (add_hours now 1)) 0).
  assert (Hsel : select_reset (password_resets_tbl s ++ [row]) tok = Some row)
    by (apply select_reset_fresh; auto).
  split.
  - intros Hle. eexists. split.
    + apply (reset_password_done tok f' now' _ row (add_hours now 1));
        auto; try (unfold add_hours; lia).
    + reflexivity.
  - intros Hlt.
    apply (reset_password_expired tok "POST" f' now' _ row (add_hours now 1));
      auto; try (unfold add_hours; lia).
Qed.

Lemma reset_token_window_witness :
  @datetime_parse wall_clock (@datetime_isoformat wall_clock (add_hours noon_2024_06_10 1))
    = Some (Naive (add_hours noon_2024_06_10 1))
  /\ exists r s1,
       @forgot sha_text wall_clock "POST" form_forgot_amina noon_2024_06_10 "tok-1"
         reset_url_example false false site_example = Done (r, s1)
       /\ (noon_2024_06_10 + 3600000000 <= noon_2024_06_10 + 3600000000 ->
           exists s2,
             @reset_password sha_text wall_clock "tok-1" "POST" form_new_password
               (noon_2024_06_10 + 3600000000) s1
               = Done (Goto "login" [(MSG_RESET_DONE, "ok")], s2)
             /\ users_tbl (billing s2)
                = map (set_password
                         (@sha256_hexdigest sha_text
                            (form_get_default form_new_password "new" ""))
                         (users.id teacher_user))
                      (users_tbl (billing site_example)))
       /\ (noon_2024_06_10 + 3600000000 < noon_2024_06_10 + 3600000000 ->
           @reset_password sha_text wall_clock "tok-1" "POST" form_new_password
             (noon_2024_06_10 + 3600000000) s1
             = Done (Goto "forgot" [(MSG_RESET_EXPIRED, "error")], s1)).
Proof.
  split; [vm_compute; reflexivity|].
  apply (@reset_token_window sha_text wall_clock form_forgot_amina
           form_new_password noon_2024_06_10 (noon_2024_06_10 + 3600000000)
           "tok-1" reset_url_example false false site_example teacher_user
           ltac:(vm_compute; discriminate) eq_refl ltac:(intros r [])
           ltac:(vm_compute; reflexivity) ltac:(vm_compute; discriminate) eq_refl).
Defined.

(** X25.  The password set through a reset is the one that logs in: after a
    reset went through under a token whose request belongs to a user with
    an email, a login with that email and the new password is answered with
    the redirect to the dashboard. *)
Theorem reset_password_then_login {T : PyText} {C : PyClock} (token : string)
    (f fl : form) (now : datetime) (s s' : site) (req : password_resets.row)
    (u : users.row) (e : string) (sess : session_state) :
  reset_password token "POST" f now s =
  Done (Goto "login" [(MSG_RESET_DONE, "ok")], s') ->
  select_reset (password_resets_tbl s) token = Some req ->
  In u (users_tbl (billing s)) ->
  users.id u = password_resets.user_id req ->
  users.email u = Some e ->
  form_email fl = e ->
  form_get_default fl "password" "" = form_get_default f "new" "" ->
  fst (login "POST" fl (billing s') sess) = Goto "dashboard" [].
Proof.
  intros H Hs Hin Hid He Hfe Hfp.
  destruct (reset_password_cases token "POST" f now s)
    as [[_ E]|[(req' & t & _ & _ & E)|[(req' & _ & _ & E)
        |[(req' & e' & fl' & _ & _ & _ & _ & E)
         |(req' & e' & Hs' & _ & _ & _ & _ & _ & E)]]]];
    rewrite E in H; try discriminate.
  inversion H; subst s'. clear H.
  rewrite Hs in Hs'. inversion Hs'; subst req'. cbn [billing].
  apply (login_after_update_password (billing s) (password_resets.user_id req)
           u e); auto.
Qed.

Lemma reset_password_then_login_witness :
  fst (@login sha_text "POST" form_login_amina_new
         (mkdb [admin_user;
                users.mk 2 None (Some "amina@example.com")
                         (Sha256.hexdigest "n3w-pass") "teacher" None None]
               [])
         None)
  = Goto "dashboard" [].
Proof.
  apply (@reset_password_then_login sha_text wall_clock "tok-1"
           form_new_password form_login_amina_new noon_2024_06_10
           (mksite (billing site_example)
                   [password_resets.mk 1 2 "tok-1" "2024-06-10T13:00:00" 0] [])
           (mksite (mkdb [admin_user;
                          users.mk 2 None (Some "amina@example.com")
                                   (Sha256.hexdigest "n3w-pass") "teacher" None None]
                         [])
                   [password_resets.mk 1 2 "tok-1" "2024-06-10T13:00:00" 1] [])
           (password_resets.mk 1 2 "tok-1" "2024-06-10T13:00:00" 0)
           teacher_user "amina@example.com" None);
    try (vm_compute; reflexivity).
  right. left. reflexivity.
Defined.

(* ------------------------------------------------------------------ *)
(** ** The current period, subjects, and access under account changes  *)
(* ------------------------------------------------------------------ *)

(** X26.  [active_subscription_for] finds the current period: it returns a
    row exactly when the user has an active period ending today or later,
    and the row it returns is such a period and ends last among them. *)
Theorem active_subscription_for_latest {L : PyLib} (today : date) (uid : Z)
    (db : database) :
  (active_subscription_for today uid db = None <-> ~ paid_up today uid db)
  /\ forall r, active_subscription_for today uid db = Some r ->
       active_period uid db r /\ today <= p_end r
       /\ forall r', active_period uid db r' -> today <= p_end r' ->
                     p_end r' <= p_end r.
Proof.
  split.
  - rewrite <- active_subscription_for_fetched.
    destruct (active_subscription_for today uid db); simpl; split;
      try discriminate; try reflexivity; intros H; congruence.
  - apply active_subscription_for_some.
Qed.

Section SubjectFacts.

Context {T : PyText}.

Lemma settings_subject_add_eq f uid s :
  form_get f "form_name" = Some "subject_add" ->
  settings "POST" f uid s =
  let sub_name := strip (form_get_default f "name" "") in
  if (sub_name =? "")%string then (Render "settings/index.html" [], s)
  else
    match insert_subject (subjects_tbl s) sub_name with
    | Done rows =>
        (Render "settings/index.html" [(MSG_SUBJECT_ADDED, "ok")],
         mksite (billing s) (password_resets_tbl s) rows)
    | Failed _ => (Render "settings/index.html" [(MSG_SUBJECT_EXISTS, "error")], s)
    end.
Proof.
  intros Hf. unfold settings, settings_subject_add, settings_user_add,
    settings_change_password. rewrite Hf.
  change ("POST" =? "POST")%string with true.
  change ("subject_add" =? "subject_add")%string with true.
  change ("subject_add" =? "user_add")%string with false.
  change ("subject_add" =? "change_password")%string with false.
  cbn [andb]. cbv iota zeta.
  destruct (strip (form_get_default f "name" "") =? "")%string; [reflexivity|].
  destruct (insert_subject _ _); reflexivity.
Qed.

Lemma insert_subject_cases rows name :
  (insert_subject rows name = Failed IntegrityError
   /\ In name (map subjects.name rows))
  \/ (insert_subject rows name
      = Done (rows ++ [subjects.mk (next_rowid subjects.id rows) name])
      /\ ~ In name (map subjects.name rows)).
Proof.
  unfold insert_subject. destruct (existsb _ rows) eqn:E.
  - left. split; [reflexivity|]. apply existsb_exists in E.
    destruct E as (r & Hin & Hr). apply String.eqb_eq in Hr.
    apply in_map_iff. eauto.
  - right. split; [reflexivity|]. intros Hin. apply in_map_iff in Hin.
    destruct Hin as (r & Hr & Hin).
    assert (existsb (fun r => (subjects.name r =? name)%string) rows = true).
    { apply existsb_exists. exists r. split; [exact Hin|]. now apply String.eqb_eq. }
    congruence.
Qed.

End SubjectFacts.

(** X27.  Subject names stay distinct: on the add-subject form the settings
    page appends the stripped name when it is not empty and no subject has
    it, and otherwise changes nothing (flashing the already-exists message
    for a taken name); so a table of distinct names stays one. *)
Theorem settings_subject_add_unique {T : PyText} (f : form) (uid : Z) (s : site) :
  form_get f "form_name" = Some "subject_add" ->
  NoDup (map subjects.name (subjects_tbl s)) ->
  let sub_name := strip (form_get_default f "name" "") in
  NoDup (map subjects.name (subjects_tbl (snd (settings "POST" f uid s))))
  /\ billing (snd (settings "POST" f uid s)) = billing s
  /\ (sub_name <> "" -> ~ In sub_name (map subjects.name (subjects_tbl s)) ->
      map subjects.name (subjects_tbl (snd (settings "POST" f uid s)))
      = map subjects.name (subjects_tbl s) ++ [sub_name])
  /\ (sub_name = "" \/ In sub_name (map subjects.name (subjects_tbl s)) ->
      snd (settings "POST" f uid s) = s).
Proof.
  intros Hf Hnd sub_name. rewrite (settings_subject_add_eq f uid s Hf).
  fold sub_name. cbv zeta.
  destruct (sub_name =? "")%string eqn:E.
  - apply String.eqb_eq in E. cbn [snd]. repeat split; auto.
    intros Hne. contradiction.
  - apply String.eqb_neq in E.
    destruct (insert_subject_cases (subjects_tbl s) sub_name) as [[Ei Hin]|[Ei Hnot]];
      rewrite Ei; cbn [snd subjects_tbl billing].
    + repeat split; auto. intros _ Hnot. contradiction.
    + split; [|split; [reflexivity|split]].
      * rewrite map_app. simpl. apply NoDup_app; [exact Hnd|repeat constructor; intros []|].
        intros x Hx [<-|[]]. contradiction.
      * intros _ _. rewrite map_app. reflexivity.
      * intros [H|H]; contradiction.
Qed.

Lemma settings_subject_add_unique_witness :
  form_get [("form_name", "subject_add"); ("name", "  Physics ")] "form_name"
    = Some "subject_add"
  /\ map subjects.name
       (subjects_tbl
          (snd (@settings sha_text "POST"
                  [("form_name", "subject_add"); ("name", "  Physics ")] 2
                  (mksite (billing site_example) [] [subjects.mk 1 "Maths"]))))
     = ["Maths"; "Physics"].
Proof.
  split; [reflexivity|].
  destruct (@settings_subject_add_unique sha_text
              [("form_name", "subject_add"); ("name", "  Physics ")] 2
              (mksite (billing site_example) [] [subjects.mk 1 "Maths"])
              eq_refl ltac:(repeat constructor; intros []))
    as (_ & _ & H & _).
  rewrite H; [reflexivity|vm_compute; discriminate|].
  vm_compute. intros [H'|[]]. discriminate.
Defined.

Section AccessUnderAccounts.

Context {L : PyLib} {T : PyText}.

Lemma select_user_update_password db h uid sid :
  select_user (update_password db h uid) sid
  = option_map (set_password h uid) (select_user db sid).
Proof.
  destruct sid as [n|]; [|reflexivity].
  unfold select_user, update_password. simpl.
  apply find_map_same. intros u. unfold set_password.
  destruct (users.id u =? uid); reflexivity.
Qed.

Lemma subscription_required_update_password today sid db h uid :
  subscription_required today sid (update_password db h uid)
  = subscription_required today sid db.
Proof.
  unfold subscription_required. rewrite select_user_update_password.
  destruct (select_user db sid) as [u|]; [|reflexivity]. cbn [option_map].
  assert (Ht : has_trial_access today (Some (set_password h uid u))
               = has_trial_access today (Some u))
    by (unfold has_trial_access, set_password;
        destruct (users.id u =? uid); reflexivity).
  assert (Hi : users.id (set_password h uid u) = users.id u)
    by (unfold set_password; destruct (users.id u =? uid); reflexivity).
  rewrite Ht, Hi. reflexivity.
Qed.

Lemma subscription_required_more_users today sid db more u :
  select_user db sid = Some u ->
  subscription_required today sid
    (mkdb (users_tbl db ++ more) (subscriptions_tbl db))
  = subscription_required today sid db.
Proof.
  intros Hu. unfold subscription_required.
  assert (E : select_user (mkdb (users_tbl db ++ more) (subscriptions_tbl db)) sid
              = Some u).
  { destruct sid as [n|]; [|discriminate]. unfold select_user in *. simpl.
    induction (users_tbl db) as [|x l IH]; simpl in *; [discriminate|].
    destruct (users.id x =? n); [exact Hu|auto]. }
  rewrite E, Hu. reflexivity.
Qed.

Lemma settings_keeps_guard today sid method f uid s u :
  select_user (billing s) sid = Some u ->
  subscription_required today sid (billing (snd (settings method f uid s)))
  = subscription_required today sid (billing s).
Proof.
  intros Hu. unfold settings.
  assert (H1 : billing (fst (settings_subject_add method f (s, []))) = billing s).
  { unfold settings_subject_add.
    destruct ((method =? "POST")%string && _); [|reflexivity].
    destruct (strip (form_get_default f "name" "") =? "")%string; [reflexivity|].
    destruct (insert_subject _ _); reflexivity. }
  destruct (settings_subject_add method f (s, [])) as [s1 fl1]. simpl in H1.
  assert (H2 : subscription_required today sid
                 (billing (fst (settings_user_add method f (s1, fl1))))
               = subscription_required today sid (billing s)).
  { unfold settings_user_add.
    destruct ((method =? "POST")%string && _);
      [|simpl; rewrite H1; reflexivity].
    cbv zeta.
    destruct ((form_email f =? "")%string || _);
      [simpl; rewrite H1; reflexivity|].
    destruct (insert_user _ _ _ _ _) as [db'|e] eqn:E;
      [|simpl; rewrite H1; reflexivity].
    apply insert_user_done in E. destruct E as (_ & _ & ->). simpl.
    rewrite H1. eapply subscription_required_more_users; eauto. }
  destruct (settings_user_add method f (s1, fl1)) as [s2 fl2]. simpl in H2.
  unfold settings_change_password.
  destruct ((method =? "POST")%string && _); [|exact H2].
  destruct (select_user (billing s2) (Some uid)) as [u'|]; [|exact H2].
  destruct (_ =? _)%string; [|exact H2].
  simpl. rewrite subscription_required_update_password. exact H2.
Qed.

End AccessUnderAccounts.

(** X28.  The settings page never changes who may see the protected pages:
    for every session user of the store and every day, the guard answers
    after a call of [settings], whatever the form, as it did before. *)
Theorem settings_keeps_access {L : PyLib} {T : PyText} (today : date)
    (sid : option Z) (method : string) (f : form) (uid : Z) (s : site)
    (u : users.row) :
  select_user (billing s) sid = Some u ->
  subscription_required today sid (billing (snd (settings method f uid s)))
  = subscription_required today sid (billing s).
Proof. apply settings_keeps_guard. Qed.

Lemma settings_keeps_access_witness :
  select_user (billing site_example) (Some 2) = Some teacher_user
  /\ @subscription_required cpython d_2024_06_01 (Some 2)
       (billing (snd (@settings sha_text "POST" form_change_password 2 site_example)))
     = @subscription_required cpython d_2024_06_01 (Some 2) (billing site_example).
Proof.
  split; [reflexivity|].
  apply (@settings_keeps_access cpython sha_text d_2024_06_01 (Some 2) "POST"
           form_change_password 2 site_example teacher_user eq_refl).
Defined.

(** X29.  A password reset never changes who may see the protected pages,
    nor the billing rows: whenever [reset_password] returns, the guard
    answers for every session and every day as it did before, and the
    subscriptions are the same. *)
Theorem reset_password_keeps_access {L : PyLib} {T : PyText} {C : PyClock}
    (today : date) (sid : option Z) (token method : string) (f : form)
    (now : datetime) (s s' : site) (r : reply) :
  reset_password token method f now s = Done (r, s') ->
  subscription_required today sid (billing s')
  = subscription_required today sid (billing s)
  /\ subscriptions_tbl (billing s') = subscriptions_tbl (billing s).
Proof.
  intros H.
  destruct (reset_password_cases token method f now s)
    as [[_ E]|[(req & t & _ & _ & E)|[(req & _ & _ & E)
        |[(req & e & fl & _ & _ & _ & _ & E)|(req & e & _ & _ & _ & _ & _ & _ & E)]]]];
    rewrite E in H; try discriminate; inversion H; subst; auto.
  cbn [billing]. split; [apply subscription_required_update_password|reflexivity].
Qed.

Lemma reset_password_keeps_access_witness :
  @subscription_required cpython d_2024_06_01 (Some 2)
    (mkdb [admin_user;
           users.mk 2 None (Some "amina@example.com")
                    (Sha256.hexdigest "n3w-pass") "teacher" None None]
          [])
  = @subscription_required cpython d_2024_06_01 (Some 2) (billing site_example).
Proof.
  apply (proj1 (@reset_password_keeps_access cpython sha_text wall_clock
                  d_2024_06_01 (Some 2) "tok-1" "POST" form_new_password
                  noon_2024_06_10
                  (mksite (billing site_example)
                          [password_resets.mk 1 2 "tok-1" "2024-06-10T13:00:00" 0] [])
                  (mksite (mkdb [admin_user;
                                 users.mk 2 None (Some "amina@example.com")
                                          (Sha256.hexdigest "n3w-pass") "teacher"
                                          None None]
                                [])
                          [password_resets.mk 1 2 "tok-1" "2024-06-10T13:00:00" 1] [])
                  (Goto "login" [(MSG_RESET_DONE, "ok")])
                  ltac:(vm_compute; reflexivity))).
Defined.
